(** * go-logging: the [logging] package (src/logging/log.go)

    A shallow embedding of the package and of the part of the Go runtime
    it calls (fmt, strings, time, os, log), followed by the properties of
    the setup and emit operations.

    Conventions.
    - Go strings are byte strings: [string].
    - [LogSeverity] is a [uint16]: a [Z] with the wrap-around written out.
    - Functions with side effects take the [World] and return the new one.
    - A Go panic is a value of type [Panic].
    - What the package calls but does not depend on in detail (the printing
      of operands other than strings and integers, directives with flags,
      width, precision or an argument index, Unicode case mapping,
      [path.Dir]) is a field of the class [GoLib]: every theorem holds for
      every instance. *)

From Stdlib Require Import ZArith Ascii String DecimalString.
From stdpp Require Import gmap strings list.

Local Open Scope string_scope.
Local Open Scope Z_scope.

(** ** Go values passed as [interface{}] operands *)

Inductive Value (O : Type) : Type :=
  | VNil
  | VString (s : string)
  | VInt (z : Z)
  | VOther (o : O).
Arguments VNil {O}.
Arguments VString {O} s.
Arguments VInt {O} z.
Arguments VOther {O} o.

(** The part of the Go library that is taken as given.  [slowVerb] is the
    general path of [fmt.pp.doPrintf] for one directive: from the text
    after the percent sign, the operand counter, the [reordered] flag and
    the operands, it gives the text appended, the number of bytes of the
    format it used, and the new counter and flag.  The first argument of
    [printOther] and [slowVerb] is [wrapErrs] (set by [Errorf] only). *)
Class GoLib := {
  Other : Type;
  typeOther : Other -> string;
  printOther : bool -> Value Other -> ascii -> string;
  slowVerb : bool -> string -> nat -> bool -> list (Value Other)
             -> string * nat * nat * bool;
  unicodeLower : string -> string;
  path_Dir : string -> string
}.

Module Fmt.

Section WithLib.
Context `{GoLib}.

Definition GoValue : Type := Value Other.

(** [strconv]-style decimal rendering of a Go [int]. *)
Definition itoa (z : Z) : string := NilZero.string_of_int (Z.to_int z).

(** [reflect.TypeOf(arg).String()] *)
Definition typeString (v : GoValue) : string :=
  match v with
  | VNil => "<nil>"
  | VString _ => "string"
  | VInt _ => "int"
  | VOther o => typeOther o
  end.

(** [pp.printArg] with no flag, width or precision set: a [string] under
    [%s] or [%v] is written as it is ([fmtString], [fmtS], [padString]), an
    [int] under [%d] or [%v] in decimal, [nil] under [%v] as [<nil>]. *)
Definition printArg (wrapErrs : bool) (arg : GoValue) (verb : ascii) : string :=
  match arg with
  | VString s =>
      if (Ascii.eqb verb "s" || Ascii.eqb verb "v")%bool then s
      else printOther wrapErrs arg verb
  | VInt z =>
      if (Ascii.eqb verb "d" || Ascii.eqb verb "v")%bool then itoa z
      else printOther wrapErrs arg verb
  | VNil =>
      if Ascii.eqb verb "v" then "<nil>" else printOther wrapErrs arg verb
  | VOther _ => printOther wrapErrs arg verb
  end.

(** [pp.missingArg] *)
Definition missingArg (verb : ascii) : string :=
  "%!" +:+ String verb "(MISSING)".

(** The operands listed after [%!(EXTRA ]. *)
Fixpoint extraList (wrapErrs : bool) (first : bool) (a : list GoValue) : string :=
  match a with
  | [] => ""
  | arg :: rest =>
      (if first then "" else ", ") +:+
      (match arg with
       | VNil => "<nil>"
       | _ => typeString arg +:+ "=" +:+ printArg wrapErrs arg "v"
       end) +:+ extraList wrapErrs false rest
  end.

(** The check for unused operands at the end of [doPrintf]. *)
Definition extraArgs (wrapErrs reordered : bool) (argNum : nat) (a : list GoValue) : string :=
  if (negb reordered && (argNum <? length a)%nat)%bool
  then "%!(EXTRA " +:+ extraList wrapErrs true (drop argNum a) +:+ ")"
  else "".

Definition isLowerVerb (c : ascii) : bool :=
  ((97 <=? nat_of_ascii c)%nat && (nat_of_ascii c <=? 122)%nat)%bool.

Fixpoint string_drop (n : nat) (s : string) : string :=
  match n, s with
  | O, _ => s
  | S n', String _ rest => string_drop n' rest
  | S _, "" => ""
  end.

(** [pp.doPrintf].  Bytes up to the next percent sign are copied.  After
    a percent sign: at the end of the format, [%!(NOVERB)] and the loop ends;
    a second percent sign writes one; a lower-case verb prints the next
    operand (the fast path of the flag loop), or [%!verb(MISSING)] when
    none is left; anything else is [slowVerb].  Each step uses at least one
    byte of the format, so [fuel] above its length is never used up. *)
Fixpoint doPrintf (wrapErrs : bool) (fuel : nat) (format : string)
    (argNum : nat) (reordered : bool) (a : list GoValue) : string :=
  match fuel with
  | O => ""
  | S fuel' =>
    match format with
    | "" => extraArgs wrapErrs reordered argNum a
    | String c rest =>
      if negb (Ascii.eqb c "%") then
        String c (doPrintf wrapErrs fuel' rest argNum reordered a)
      else
        match rest with
        | "" => "%!(NOVERB)" +:+ extraArgs wrapErrs reordered argNum a
        | String v rest' =>
          if Ascii.eqb v "%" then
            String "%" (doPrintf wrapErrs fuel' rest' argNum reordered a)
          else if isLowerVerb v then
            match a !! argNum with
            | Some arg =>
                printArg wrapErrs arg v +:+
                doPrintf wrapErrs fuel' rest' (S argNum) reordered a
            | None =>
                missingArg v +:+
                doPrintf wrapErrs fuel' rest' argNum reordered a
            end
          else
            let '(out, n, argNum', reordered') :=
              slowVerb wrapErrs rest argNum reordered a in
            out +:+ doPrintf wrapErrs fuel' (string_drop n rest) argNum' reordered' a
        end
    end
  end.

(** [fmt.Sprintf] *)
Definition Sprintf (format : string) (a : list GoValue) : string :=
  doPrintf false (S (String.length format)) format 0%nat false a.

End WithLib.
End Fmt.

(** ** Results *)

Inductive res (E A : Type) : Type :=
  | Ok (a : A)
  | Err (e : E).
Arguments Ok {E A} a.
Arguments Err {E A} e.

(** ** strings *)

Module Strings.
Section WithLib.
Context `{GoLib}.

Fixpoint isASCII (s : string) : bool :=
  match s with
  | "" => true
  | String c rest => ((nat_of_ascii c <? 128)%nat && isASCII rest)%bool
  end.

Definition lowerByte (c : ascii) : ascii :=
  let n := nat_of_ascii c in
  if ((65 <=? n)%nat && (n <=? 90)%nat)%bool then ascii_of_nat (n + 32) else c.

Fixpoint mapBytes (f : ascii -> ascii) (s : string) : string :=
  match s with
  | "" => ""
  | String c rest => String (f c) (mapBytes f rest)
  end.

(** [strings.ToLower]: the ASCII-only path is transcribed; a string with a
    byte above 127 goes through [unicode.ToLower], which is [unicodeLower]. *)
Definition ToLower (s : string) : string :=
  if isASCII s then mapBytes lowerByte s else unicodeLower s.

End WithLib.
End Strings.

(** ** time *)

Module Time.

(** A wall-clock reading, by its calendar fields. *)
Record Time := {
  year : Z; month : Z; day : Z; hour : Z; minute : Z; second : Z
}.

Fixpoint zeros (n : nat) : string :=
  match n with
  | O => ""
  | S n' => String "0" (zeros n')
  end.

(** [time.appendInt]: the decimal form of [x], padded with zeros to at least
    [width] digits, after a minus sign when [x] is negative. *)
Definition appendInt (x : Z) (width : nat) : string :=
  let digits := NilZero.string_of_uint (N.to_uint (Z.to_N (Z.abs x))) in
  (if x <? 0 then "-" else "") +:+
  zeros (width - String.length digits) +:+ digits.

(** [t.Format("20060102150405")]: the chunks of this layout are the long
    year, the zero-padded month, day, 24-hour hour, minute and second. *)
Definition Format_20060102150405 (t : Time) : string :=
  appendInt (year t) 4 +:+ appendInt (month t) 2 +:+ appendInt (day t) 2 +:+
  appendInt (hour t) 2 +:+ appendInt (minute t) 2 +:+ appendInt (second t) 2.

(** The readings [time.Now] returns for a date of the common era. *)
Definition wellFormed (t : Time) : Prop :=
  0 <= year t <= 9999 /\ 1 <= month t <= 12 /\ 1 <= day t <= 31 /\
  0 <= hour t <= 23 /\ 0 <= minute t <= 59 /\ 0 <= second t <= 59.

Definition isDigit (c : ascii) : bool :=
  ((48 <=? nat_of_ascii c)%nat && (nat_of_ascii c <=? 57)%nat)%bool.

Fixpoint allDigits (s : string) : bool :=
  match s with
  | "" => true
  | String c rest => (isDigit c && allDigits rest)%bool
  end.

End Time.

(** ** os and log: the world the package acts on *)

Module Sys.
Import Time.

Inductive Errno := ENOENT | EACCES | EEXIST | EISDIR | ENOTDIR | ENOSPC | EXDEV | EROFS.

(** [syscall.Errno.Error] *)
Definition Errno_Error (e : Errno) : string :=
  match e with
  | ENOENT => "no such file or directory"
  | EACCES => "permission denied"
  | EEXIST => "file exists"
  | EISDIR => "is a directory"
  | ENOTDIR => "not a directory"
  | ENOSPC => "no space left on device"
  | EXDEV => "invalid cross-device link"
  | EROFS => "read-only file system"
  end.

(** Go [error] values: [errors.errorString] (also what [fmt.Errorf] builds),
    [os.PathError] and [os.LinkError]. *)
Inductive error :=
  | errorString (s : string)
  | PathError (op path : string) (e : Errno)
  | LinkError (op old new : string) (e : Errno).

(** [err.Error()] *)
Definition Error_ (err : error) : string :=
  match err with
  | errorString s => s
  | PathError op path e => op +:+ " " +:+ path +:+ ": " +:+ Errno_Error e
  | LinkError op old new e =>
      op +:+ " " +:+ old +:+ " " +:+ new +:+ ": " +:+ Errno_Error e
  end.

(** [os.IsNotExist]: the underlying error is [ENOENT]. *)
Definition os_IsNotExist (err : error) : bool :=
  match err with
  | PathError _ _ ENOENT | LinkError _ _ _ ENOENT => true
  | _ => false
  end.

(** A file system node.  The paths are a flat name space of names taken as
    written: a node says nothing of the nodes whose paths lie below it. *)
Inductive Node :=
  | NFile (content : string)
  | NDir.

(** The calls of package os the logging package makes. *)
Inductive Syscall :=
  | Stat (path : string)
  | MkdirAll (path : string) (perm : Z)
  | Rename (old new : string)
  | Create (path : string).

(** [*os.File] *)
Record File := { fd : nat; name : string }.

(** [io.Writer]: the process's standard output or an open file. *)
Inductive Writer :=
  | Stdout
  | FileWriter (f : File).

(** [*log.Logger] *)
Record log_Logger := { log_out : Writer; log_prefix : string; log_flag : Z }.

(** The world: the file system; [fault], which makes the [n]-th call fail
    with an error number whatever the file system holds (permissions, a
    full disk, another process); the clock and the number of readings
    taken; the next file descriptor; the calls made; and the calls of
    [log.Logger.Output], as the logger and the text handed to it. *)
Record World := {
  nodes : gmap string Node;
  fault : nat -> Syscall -> option Errno;
  clock : nat -> Time;
  ticks : nat;
  next_fd : nat;
  calls : list Syscall;
  output : list (log_Logger * string)
}.

Definition record_call (c : Syscall) (w : World) : World :=
  {| nodes := nodes w; fault := fault w; clock := clock w; ticks := ticks w;
     next_fd := next_fd w; calls := calls w ++ [c]; output := output w |}.

Definition set_nodes (m : gmap string Node) (w : World) : World :=
  {| nodes := m; fault := fault w; clock := clock w; ticks := ticks w;
     next_fd := next_fd w; calls := calls w; output := output w |}.

(** The world after further calls of [Output]. *)
Definition add_output (evs : list (log_Logger * string)) (w : World) : World :=
  {| nodes := nodes w; fault := fault w; clock := clock w; ticks := ticks w;
     next_fd := next_fd w; calls := calls w; output := output w ++ evs |}.

(** The error number injected into the next call, if any. *)
Definition injected (c : Syscall) (w : World) : option Errno :=
  fault w (length (calls w)) c.

(** [os.Stat] *)
Definition os_Stat (path : string) (w : World) : World * res error Node :=
  let w' := record_call (Stat path) w in
  match injected (Stat path) w with
  | Some e => (w', Err (PathError "stat" path e))
  | None =>
      match nodes w !! path with
      | Some n => (w', Ok n)
      | None => (w', Err (PathError "stat" path ENOENT))
      end
  end.

(** [os.MkdirAll]: nothing to do for a directory, an error for a file, and
    the directory is made otherwise.  Only the directory itself is entered:
    the ancestors [os.MkdirAll] makes on the way, also before an error, are
    not, so the properties below say nothing of them. *)
Definition os_MkdirAll (path : string) (perm : Z) (w : World) : World * option error :=
  let w' := record_call (MkdirAll path perm) w in
  match injected (MkdirAll path perm) w with
  | Some e => (w', Some (PathError "mkdir" path e))
  | None =>
      match nodes w !! path with
      | Some NDir => (w', None)
      | Some (NFile _) => (w', Some (PathError "mkdir" path ENOTDIR))
      | None => (set_nodes (<[path := NDir]> (nodes w)) w', None)
      end
  end.

(** [os.Rename]: the node moves to the new name and replaces a file there;
    a directory at the new name is an error.  This is the rename of a
    regular file; of a directory only its own node moves here, so the
    properties below that speak of other paths keep to regular files. *)
Definition os_Rename (old new : string) (w : World) : World * option error :=
  let w' := record_call (Rename old new) w in
  match injected (Rename old new) w with
  | Some e => (w', Some (LinkError "rename" old new e))
  | None =>
      match nodes w !! old, nodes w !! new with
      | None, _ => (w', Some (LinkError "rename" old new ENOENT))
      | Some _, Some NDir => (w', Some (LinkError "rename" old new EEXIST))
      | Some NDir, Some (NFile _) => (w', Some (LinkError "rename" old new ENOTDIR))
      | Some n, _ => (set_nodes (<[new := n]> (delete old (nodes w))) w', None)
      end
  end.

(** [os.Create]: the file is created or truncated and opened. *)
Definition os_Create (path : string) (w : World) : World * res error File :=
  let w' := record_call (Create path) w in
  match injected (Create path) w with
  | Some e => (w', Err (PathError "open" path e))
  | None =>
      match nodes w !! path with
      | Some NDir => (w', Err (PathError "open" path EISDIR))
      | _ =>
          let f := {| fd := next_fd w; name := path |} in
          ({| nodes := <[path := NFile ""]> (nodes w); fault := fault w;
              clock := clock w; ticks := ticks w; next_fd := S (next_fd w);
              calls := calls w'; output := output w |}, Ok f)
      end
  end.

(** [time.Now] *)
Definition time_Now (w : World) : World * Time :=
  ({| nodes := nodes w; fault := fault w; clock := clock w; ticks := S (ticks w);
      next_fd := next_fd w; calls := calls w; output := output w |},
   clock w (ticks w)).

(** [os.ModeDir | os.ModePerm] *)
Definition os_ModeDir : Z := Z.shiftl 1 31.
Definition os_ModePerm : Z := 511.

(** [log.Ldate], [log.Ltime], [log.Lmicroseconds] *)
Definition log_Ldate : Z := 1.
Definition log_Ltime : Z := 2.
Definition log_Lmicroseconds : Z := 4.

(** [log.New] *)
Definition log_New (out : Writer) (prefix : string) (flag : Z) : log_Logger :=
  {| log_out := out; log_prefix := prefix; log_flag := flag |}.

(** A panic: an index out of range, or a nil pointer dereference. *)
Inductive Panic :=
  | IndexOutOfRange (index : Z) (len : nat)
  | NilDereference.

Section WithLib.
Context `{GoLib}.

(** [fmt.Errorf]: the error whose text is the formatted string ([doPrintf]
    with [wrapErrs] set); the errors it wraps are not kept. *)
Definition Errorf (format : string) (a : list Fmt.GoValue) : error :=
  errorString (Fmt.doPrintf true (S (String.length format)) format 0%nat false a).

(** [log.Logger.Printf]: [Output] is called with [Sprintf(format, v...)];
    its error is dropped.  A nil logger panics. *)
Definition log_Printf (l : option log_Logger) (format : string)
    (v : list Fmt.GoValue) (w : World) : World * option Panic :=
  match l with
  | None => (w, Some NilDereference)
  | Some lg => (add_output [(lg, Fmt.Sprintf format v)] w, None)
  end.

End WithLib.
End Sys.

(** ** package logging *)

(** [LogConfig]: the entries of [cfg.Loggers]; [None] is the nil slice. *)
Module LogConfig.
Record Item := {
  LogType : string;
  Severity : Z;
  Rotate : bool;
  Path : string;
  Prefix : string
}.
Record t := { Loggers : option (list Item) }.
End LogConfig.

Module Logging.
Import Sys.

(** [const logFlags = log.Ldate | log.Ltime | log.Lmicroseconds] *)
Definition logFlags : Z := Z.lor (Z.lor log_Ldate log_Ltime) log_Lmicroseconds.

(** [type LogSeverity uint16] *)
Definition LogSeverity : Type := Z.
Definition uint16 (z : Z) : Z := z mod 65536.

Definition Fatal : LogSeverity := 10.
Definition Error : LogSeverity := 20.
Definition Warning : LogSeverity := 30.
Definition Information : LogSeverity := 40.
Definition Debug : LogSeverity := 50.
Definition Verbose : LogSeverity := 60.

(** [type LogType byte], [File = iota + 1], [Screen] *)
Definition LogType : Type := Z.
Definition File : LogType := 0 + 1.
Definition Screen : LogType := 1 + 1.

(** [type Logger struct] *)
Record Logger := {
  rawLogger : option log_Logger;
  severity : LogSeverity;
  logType : LogType;
  prefix : string
}.

(** [&Logger{}] *)
Definition newLogger : Logger :=
  {| rawLogger := None; severity := 0; logType := 0; prefix := "" |}.

Definition set_rawLogger (r : log_Logger) (lg : Logger) : Logger :=
  {| rawLogger := Some r; severity := severity lg; logType := logType lg;
     prefix := prefix lg |}.
Definition set_severity (s : LogSeverity) (lg : Logger) : Logger :=
  {| rawLogger := rawLogger lg; severity := s; logType := logType lg;
     prefix := prefix lg |}.
Definition set_logType (t : LogType) (lg : Logger) : Logger :=
  {| rawLogger := rawLogger lg; severity := severity lg; logType := t;
     prefix := prefix lg |}.

(** [type Log struct] *)
Record Log := { loggers : list Logger }.

Definition logStrings : list string :=
  [ "FATAL  "; "ERROR  "; "WARNING"; "INFO   "; "DEBUG  "; "VERBOSE" ].

(** [getLogTypeString]: the index [severity/10-1] is computed in [uint16];
    out of range, the indexing panics. *)
Definition getLogTypeString (severity : LogSeverity) : res Panic string :=
  let index := uint16 (severity / 10 - 1) in
  match logStrings !! Z.to_nat index with
  | Some s => Ok s
  | None => Err (IndexOutOfRange index (length logStrings))
  end.

(** [(l *Logger) logger] *)
Definition logger (l : Logger) : option log_Logger := rawLogger l.

(** [for _, lg := range l.loggers { body }], where the body may panic. *)
Fixpoint rangeLoggers (body : Logger -> World -> World * option Panic)
    (lgs : list Logger) (w : World) : World * option Panic :=
  match lgs with
  | [] => (w, None)
  | lg :: rest =>
      match body lg w with
      | (w', Some p) => (w', Some p)
      | (w', None) => rangeLoggers body rest w'
      end
  end.

Section WithLib.
Context `{GoLib}.

(** [(l *Log) createLogDir] *)
Definition createLogDir (path : string) (w : World) : World * option error :=
  let '(w1, r) := os_Stat path w in
  match r with
  | Err err =>
      if os_IsNotExist err
      then os_MkdirAll path (Z.lor os_ModeDir os_ModePerm) w1
      else (w1, None)
  | Ok _ => (w1, None)
  end.

(** The new name [os.Rename] is given in [createLogFile]. *)
Definition rotatedName (logFilePath : string) (now : Time.Time) : string :=
  Fmt.Sprintf "%s.%s"
    [VString logFilePath; VString (Time.Format_20060102150405 now)].

(** [(l *Log) createLogFile] *)
Definition createLogFile (logFilePath : string) (rotate : bool) (w : World)
    : World * res error Sys.File :=
  let '(w1, r) := os_Stat logFilePath w in
  match r with
  | Err err =>
      if os_IsNotExist err then os_Create logFilePath w1 else (w1, Err err)
  | Ok _ =>
      if rotate then
        let '(w2, now) := time_Now w1 in
        let '(w3, e) := os_Rename logFilePath (rotatedName logFilePath now) w2 in
        match e with
        | Some err => (w3, Err err)
        | None => os_Create logFilePath w3
        end
      else os_Create logFilePath w1
  end.

(** The body of the loop of [SetupLoggers] for one entry: the logger to
    append, or the error that [SetupLoggers] returns. *)
Definition setupItem (item : LogConfig.Item) (w : World) : World * res error Logger :=
  let lg := newLogger in
  let kind := Strings.ToLower (LogConfig.LogType item) in
  match
    (if String.eqb kind "file" then Some (set_logType File lg)
     else if String.eqb kind "screen" then Some (set_logType Screen lg)
     else None)
  with
  | None =>
      (w, Err (Errorf "%s is invalid log type" [VString (LogConfig.LogType item)]))
  | Some lg =>
      let lg := set_severity (LogConfig.Severity item) lg in
      if logType lg =? Screen then
        (w, Ok (set_rawLogger (log_New Stdout (LogConfig.Prefix item) logFlags) lg))
      else if logType lg =? File then
        let logDir := path_Dir (LogConfig.Path item) in
        let '(w1, e) := createLogDir logDir w in
        match e with
        | Some err =>
            (w1, Err (Errorf "failed to create logging directory: %s"
                        [VString (Error_ err)]))
        | None =>
            let '(w2, r) := createLogFile (LogConfig.Path item) (LogConfig.Rotate item) w1 in
            match r with
            | Err err =>
                (w2, Err (Errorf "failed to create log file: %s" [VString (Error_ err)]))
            | Ok f =>
                (w2, Ok (set_rawLogger
                           (log_New (FileWriter f) (LogConfig.Prefix item) logFlags) lg))
            end
        end
      else (w, Ok lg)
  end.

(** [for _, item := range cfg.Loggers] in [SetupLoggers]: the first error
    is returned at once; otherwise the logger is appended to [l.loggers]. *)
Fixpoint setupRange (l : Log) (items : list LogConfig.Item) (w : World)
    : World * Log * option error :=
  match items with
  | [] => (w, l, None)
  | item :: rest =>
      match setupItem item w with
      | (w', Err err) => (w', l, Some err)
      | (w', Ok lg) => setupRange {| loggers := loggers l ++ [lg] |} rest w'
      end
  end.

(** [(l *Log) SetupLoggers]: the world and the dispatcher after the call,
    and the error returned ([None] is nil). *)
Definition SetupLoggers (l : Log) (cfg : LogConfig.t) (w : World)
    : World * Log * option error :=
  match LogConfig.Loggers cfg with
  | None => (w, l, Some (Errorf "unable to setup loggers" []))
  | Some items =>
      if (length items =? 0)%nat
      then (w, l, Some (Errorf "unable to setup loggers" []))
      else setupRange l items w
  end.

(** [(l *Log) writeMessage] *)
Definition writeMessage (l : Log) (severity : LogSeverity) (msg : string)
    (w : World) : World * option Panic :=
  rangeLoggers
    (fun lg w =>
       if Logging.severity lg >=? severity then
         match getLogTypeString severity with
         | Err p => (w, Some p)
         | Ok label => log_Printf (logger lg) "%s %s" [VString label; VString msg] w
         end
       else (w, None))
    (loggers l) w.

(** [(l *Log) writeMessagef] *)
Definition writeMessagef (l : Log) (severity : LogSeverity) (msg : string)
    (args : list Fmt.GoValue) (w : World) : World * option Panic :=
  rangeLoggers
    (fun lg w =>
       if Logging.severity lg >=? severity then
         match getLogTypeString severity with
         | Err p => (w, Some p)
         | Ok label =>
             log_Printf (logger lg)
               (Fmt.Sprintf "%s %s" [VString label; VString msg]) args w
         end
       else (w, None))
    (loggers l) w.

(** The public methods of [Log]. *)
Definition Log_Fatal (l : Log) (msg : string) := writeMessage l Fatal msg.
Definition Log_Fatalf (l : Log) (msg : string) (args : list Fmt.GoValue) :=
  writeMessagef l Fatal msg args.
Definition Log_Error (l : Log) (msg : string) := writeMessage l Error msg.
Definition Log_Errorf (l : Log) (msg : string) (args : list Fmt.GoValue) :=
  writeMessagef l Error msg args.
(** [Errore]: [err.Error()] is evaluated first; on a nil error ([None]) it
    panics before any sink is looked at. *)
Definition Log_Errore (l : Log) (err : option error) (w : World)
    : World * option Panic :=
  match err with
  | None => (w, Some NilDereference)
  | Some e => Log_Error l (Error_ e) w
  end.
Definition Log_Warning (l : Log) (msg : string) := writeMessage l Warning msg.
Definition Log_Warningf (l : Log) (msg : string) (args : list Fmt.GoValue) :=
  writeMessagef l Warning msg args.
Definition Log_Info (l : Log) (msg : string) := writeMessage l Information msg.
Definition Log_Infof (l : Log) (msg : string) (args : list Fmt.GoValue) :=
  writeMessagef l Information msg args.
Definition Log_Debug (l : Log) (msg : string) := writeMessage l Debug msg.
Definition Log_Debugf (l : Log) (msg : string) (args : list Fmt.GoValue) :=
  writeMessagef l Debug msg args.
Definition Log_Verbose (l : Log) (msg : string) := writeMessage l Verbose msg.
Definition Log_Verbosef (l : Log) (msg : string) (args : list Fmt.GoValue) :=
  writeMessagef l Verbose msg args.

End WithLib.
End Logging.

(** ** An instance of [GoLib] to run the definitions on

    [dirName] is the text before the last slash, which is what [path.Dir]
    gives on a cleaned path; the other fields print a fixed marker. *)

Module Demo.

Fixpoint beforeLastSlash (s : string) : option string :=
  match s with
  | "" => None
  | String c rest =>
      match beforeLastSlash rest with
      | Some d => Some (String c d)
      | None => if Ascii.eqb c "/" then Some "" else None
      end
  end.

Definition dirName (p : string) : string :=
  match beforeLastSlash p with
  | None => "."
  | Some "" => "/"
  | Some d => d
  end.

Definition lib : GoLib :=
  {| Other := Empty_set;
     typeOther := fun _ => "?";
     printOther := fun _ _ verb => "%!" +:+ String verb "(?)";
     slowVerb := fun _ _ argNum reordered _ => ("%!(?)", 1%nat, argNum, reordered);
     unicodeLower := fun s => s;
     path_Dir := dirName |}.

(** A clock that stands at 2024-03-09 07:05:59. *)
Definition sampleTime : Time.Time :=
  {| Time.year := 2024; Time.month := 3; Time.day := 9;
     Time.hour := 7; Time.minute := 5; Time.second := 59 |}.

(** A world with a directory [/var/log] holding a file [app.log], and no
    injected failure. *)
Definition world0 : Sys.World :=
  {| Sys.nodes := <["/var/log/app.log" := Sys.NFile "old lines"]>
                    (<["/var/log" := Sys.NDir]> ∅);
     Sys.fault := fun _ _ => None;
     Sys.clock := fun _ => sampleTime;
     Sys.ticks := 0;
     Sys.next_fd := 3;
     Sys.calls := [];
     Sys.output := [] |}.

(** The same world where every [os.Stat] fails with [EACCES]. *)
Definition world_noaccess : Sys.World :=
  {| Sys.nodes := Sys.nodes world0;
     Sys.fault := fun _ c => match c with Sys.Stat _ => Some Sys.EACCES | _ => None end;
     Sys.clock := Sys.clock world0;
     Sys.ticks := 0;
     Sys.next_fd := 3;
     Sys.calls := [];
     Sys.output := [] |}.

(** The same world where every [os.Rename] fails with [EACCES]. *)
Definition world_norename : Sys.World :=
  {| Sys.nodes := Sys.nodes world0;
     Sys.fault := fun _ c => match c with Sys.Rename _ _ => Some Sys.EACCES | _ => None end;
     Sys.clock := Sys.clock world0;
     Sys.ticks := 0;
     Sys.next_fd := 3;
     Sys.calls := [];
     Sys.output := [] |}.

Definition screenItem (sev : Z) (pfx : string) : LogConfig.Item :=
  {| LogConfig.LogType := "Screen"; LogConfig.Severity := sev;
     LogConfig.Rotate := false; LogConfig.Path := ""; LogConfig.Prefix := pfx |}.

Definition fileItem (sev : Z) (rot : bool) (p : string) : LogConfig.Item :=
  {| LogConfig.LogType := "FILE"; LogConfig.Severity := sev;
     LogConfig.Rotate := rot; LogConfig.Path := p; LogConfig.Prefix := "" |}.

Definition socketItem : LogConfig.Item :=
  {| LogConfig.LogType := "socket"; LogConfig.Severity := 30;
     LogConfig.Rotate := false; LogConfig.Path := ""; LogConfig.Prefix := "" |}.

(** Two screen sinks at the thresholds Error and Verbose. *)
Definition twoSinks : Logging.Log :=
  {| Logging.loggers :=
       [ {| Logging.rawLogger := Some (Sys.log_New Sys.Stdout "err:" Logging.logFlags);
            Logging.severity := Logging.Error; Logging.logType := Logging.Screen;
            Logging.prefix := "" |};
         {| Logging.rawLogger := Some (Sys.log_New Sys.Stdout "app:" Logging.logFlags);
            Logging.severity := Logging.Verbose; Logging.logType := Logging.Screen;
            Logging.prefix := "" |} ] |}.

Definition emptyLog : Logging.Log := {| Logging.loggers := [] |}.

(** A screen sink with the zero severity. *)
Definition zeroSink : Logging.Log :=
  {| Logging.loggers :=
       [ {| Logging.rawLogger := Some (Sys.log_New Sys.Stdout "" Logging.logFlags);
            Logging.severity := 0; Logging.logType := Logging.Screen;
            Logging.prefix := "" |} ] |}.

(** [world0] where every [os.MkdirAll] fails with [EACCES]. *)
Definition world_nomkdir : Sys.World :=
  {| Sys.nodes := Sys.nodes world0;
     Sys.fault := fun _ c => match c with Sys.MkdirAll _ _ => Some Sys.EACCES | _ => None end;
     Sys.clock := Sys.clock world0;
     Sys.ticks := 0;
     Sys.next_fd := 3;
     Sys.calls := [];
     Sys.output := [] |}.

Definition logPath : string := "/var/log/app.log".

(** Two entries that are set up without error where renaming is denied,
    what the loop of [SetupLoggers] gives for them, and the step of a third
    entry, which rotates and fails. *)
Definition preItems : list LogConfig.Item :=
  [ fileItem 30 false "/var/log/other.log"; screenItem 60 "p" ].

Definition afterPre : Sys.World * Logging.Log * option Sys.error :=
  Logging.setupRange (H := lib) emptyLog preItems world_norename.

Definition afterFail : Sys.World * res Sys.error Logging.Logger :=
  Logging.setupItem (H := lib) (fileItem 10 true logPath) afterPre.1.1.

End Demo.

(** ** Vocabulary of the statements *)

(** No percent sign occurs in the string. *)
Fixpoint noPercent (s : string) : bool :=
  match s with
  | "" => true
  | String c rest => (negb (Ascii.eqb c "%") && noPercent rest)%bool
  end.

(** The writes of one line by a list of sinks, in their order: each through
    its own raw logger. *)
Definition writes (line : string) (lgs : list Logging.Logger)
    : list (Sys.log_Logger * string) :=
  (fun r => (r, line)) <$> omap Logging.rawLogger lgs.

(** Every sink of the dispatcher has a raw logger, as those that
    [SetupLoggers] appends do. *)
Definition allRaw (l : Logging.Log) : Prop :=
  Forall (fun lg => is_Some (Logging.rawLogger lg)) (Logging.loggers l).

(** The names of the six severities, as the specification lists them. *)
Definition severityNames : list (Logging.LogSeverity * string) :=
  [ (Logging.Fatal, "FATAL"); (Logging.Error, "ERROR");
    (Logging.Warning, "WARNING"); (Logging.Information, "INFO");
    (Logging.Debug, "DEBUG"); (Logging.Verbose, "VERBOSE") ].

Fixpoint spaces (n : nat) : string :=
  match n with
  | O => ""
  | S n' => String " " (spaces n')
  end.

(** [s] followed by spaces up to [n] characters. *)
Definition padRight (n : nat) (s : string) : string :=
  s +:+ spaces (n - String.length s).

(** The call did not panic on an index out of range. *)
Definition noIndexPanic (r : Sys.World * option Sys.Panic) : Prop :=
  forall (index : Z) (len : nat), r.2 <> Some (Sys.IndexOutOfRange index len).

(** A field of the timestamp is [width] digits and nothing else. *)
Definition fieldOk (width : nat) (x : Z) : bool :=
  ((String.length (Time.appendInt x width) =? width)%nat && Time.allDigits (Time.appendInt x width))%bool.


Section SetupVocabulary.
Context `{GoLib}.
Import Sys Logging.

(** The logger a screen entry gives. *)
Definition screenLogger (item : LogConfig.Item) : Logger :=
  {| rawLogger := Some (log_New Stdout (LogConfig.Prefix item) logFlags);
     severity := LogConfig.Severity item; logType := Screen; prefix := "" |}.

(** The logger a file entry gives once its file is open. *)
Definition fileLogger (item : LogConfig.Item) (f : Sys.File) : Logger :=
  {| rawLogger := Some (log_New (FileWriter f) (LogConfig.Prefix item) logFlags);
     severity := LogConfig.Severity item; logType := File; prefix := "" |}.

(** What [setupItem] does for a file entry after the directory step. *)
Definition openLogFile (item : LogConfig.Item) (w1 : World) : World * res error Logger :=
  let '(w2, r) := createLogFile (LogConfig.Path item) (LogConfig.Rotate item) w1 in
  match r with
  | Err err => (w2, Err (errorString ("failed to create log file: " +:+ Error_ err)))
  | Ok f => (w2, Ok (fileLogger item f))
  end.

(** What a successful step built. *)
Definition builtFrom (lg : Logger) (item : LogConfig.Item) : Prop :=
  (Strings.ToLower (LogConfig.LogType item) = "screen" /\ lg = screenLogger item)
  \/ (Strings.ToLower (LogConfig.LogType item) = "file"
      /\ exists f : Sys.File, lg = fileLogger item f).

(** The name [createLogFile] moves an existing file to, in world [w]: the
    path, a dot, and the reading of the clock as fourteen digits. *)
Definition backupName (path : string) (w : World) : string :=
  path +:+ "." +:+ Time.Format_20060102150405 (clock w (ticks w)).

End SetupVocabulary.

(** * Properties *)

(** ** Running the model *)

Example run_Infof :
  Sys.output (fst (Logging.Log_Infof (H := Demo.lib) Demo.twoSinks "count=%d" [VInt 5] Demo.world0))
  = [(Sys.log_New Sys.Stdout "app:" 7, "INFO    count=5")].
Proof. vm_compute. reflexivity. Qed.

Example run_Warning :
  Logging.Log_Warning (H := Demo.lib) Demo.twoSinks "disk" Demo.world0
  = (Sys.add_output [(Sys.log_New Sys.Stdout "app:" 7, "WARNING disk")] Demo.world0, None).
Proof. vm_compute. reflexivity. Qed.

Example run_Fatal :
  Sys.output (fst (Logging.Log_Fatal (H := Demo.lib) Demo.twoSinks "boom" Demo.world0))
  = [(Sys.log_New Sys.Stdout "err:" 7, "FATAL   boom");
     (Sys.log_New Sys.Stdout "app:" 7, "FATAL   boom")].
Proof. vm_compute. reflexivity. Qed.

Example run_Sprintf :
  Fmt.Sprintf (H := Demo.lib) "%d%% of %s%v" [VInt (-3); VString "x"]
  = "-3% of x%!v(MISSING)".
Proof. vm_compute. reflexivity. Qed.

Example run_Sprintf_extra :
  Fmt.Sprintf (H := Demo.lib) "n=%d" [VInt 1; VString "x"; VNil]
  = "n=1%!(EXTRA string=x, <nil>)".
Proof. vm_compute. reflexivity. Qed.

Example run_ToLower :
  Strings.ToLower (H := Demo.lib) "ScReEn" = "screen".
Proof. vm_compute. reflexivity. Qed.

Example run_rotatedName :
  Logging.rotatedName (H := Demo.lib) "/var/log/app.log" Demo.sampleTime
  = "/var/log/app.log.20240309070559".
Proof. vm_compute. reflexivity. Qed.

(** ** Strings *)

Lemma append_cons (c : ascii) (s t : string) : String c s +:+ t = String c (s +:+ t).
Proof. reflexivity. Qed.

Lemma append_nil_l (t : string) : "" +:+ t = t.
Proof. reflexivity. Qed.

Lemma append_nil_r (s : string) : s +:+ "" = s.
Proof.
  induction s as [|c s IH]; [reflexivity|]. now rewrite append_cons, IH.
Qed.

Lemma append_assoc (s1 s2 s3 : string) : (s1 +:+ s2) +:+ s3 = s1 +:+ (s2 +:+ s3).
Proof.
  induction s1 as [|c s1 IH]; [reflexivity|]. now rewrite !append_cons, IH.
Qed.

Lemma length_append (s1 s2 : string) :
  String.length (s1 +:+ s2) = (String.length s1 + String.length s2)%nat.
Proof.
  induction s1 as [|c s1 IH]; [reflexivity|].
  rewrite append_cons. simpl. now rewrite IH.
Qed.

(** ** fmt: what the package relies on *)

Section FmtFacts.
Context `{GoLib}.
Import Fmt.

Lemma length_string_drop (n : nat) (s : string) :
  (String.length (string_drop n s) <= String.length s)%nat.
Proof.
  revert s. induction n as [|n IH]; intros s; [simpl; lia|].
  destruct s as [|c s]; simpl; [lia|]. specialize (IH s). lia.
Qed.

(** One step of [doPrintf]. *)
Lemma doPrintf_S (wrapErrs : bool) (fuel : nat) (c : ascii) (rest : string)
    (argNum : nat) (reordered : bool) (a : list GoValue) :
  doPrintf wrapErrs (S fuel) (String c rest) argNum reordered a
  = if negb (Ascii.eqb c "%") then
      String c (doPrintf wrapErrs fuel rest argNum reordered a)
    else
      match rest with
      | "" => "%!(NOVERB)" +:+ extraArgs wrapErrs reordered argNum a
      | String v rest' =>
          if Ascii.eqb v "%" then
            String "%" (doPrintf wrapErrs fuel rest' argNum reordered a)
          else if isLowerVerb v then
            match a !! argNum with
            | Some arg =>
                printArg wrapErrs arg v +:+
                doPrintf wrapErrs fuel rest' (S argNum) reordered a
            | None =>
                missingArg v +:+ doPrintf wrapErrs fuel rest' argNum reordered a
            end
          else
            let '(out, n, argNum', reordered') :=
              slowVerb wrapErrs rest argNum reordered a in
            out +:+ doPrintf wrapErrs fuel (string_drop n rest) argNum' reordered' a
      end.
Proof. reflexivity. Qed.

(** The fuel [Sprintf] gives [doPrintf] is never used up: any larger amount
    gives the same text. *)
Lemma doPrintf_fuel (wrapErrs : bool) (fuel : nat) :
  forall (format : string) (argNum : nat) (reordered : bool) (a : list GoValue),
    (String.length format < fuel)%nat ->
    doPrintf wrapErrs fuel format argNum reordered a
    = doPrintf wrapErrs (S (String.length format)) format argNum reordered a.
Proof.
  induction fuel as [fuel IH] using lt_wf_ind.
  intros format argNum reordered a Hlt.
  destruct fuel as [|fuel]; [lia|].
  destruct format as [|c rest]; [reflexivity|].
  assert (Hrec : forall f k r, (String.length f <= String.length rest)%nat ->
            doPrintf wrapErrs fuel f k r a
            = doPrintf wrapErrs (String.length (String c rest)) f k r a).
  { intros f k r Hle. simpl in Hlt. simpl String.length.
    rewrite (IH fuel) by lia.
    symmetry. destruct (decide (String.length rest = String.length f)) as [->|Hne];
      [reflexivity|]. apply (IH (S (String.length rest))); lia. }
  rewrite !doPrintf_S.
  destruct (negb (Ascii.eqb c "%")); [now rewrite Hrec by lia|].
  destruct rest as [|v rest']; [reflexivity|].
  destruct (Ascii.eqb v "%"); [now rewrite Hrec by (simpl; lia)|].
  destruct (isLowerVerb v).
  - destruct (a !! argNum); now rewrite Hrec by (simpl; lia).
  - destruct (slowVerb wrapErrs (String v rest') argNum reordered a)
      as [[[out n] argNum'] reordered'].
    now rewrite Hrec by apply length_string_drop.
Qed.

(** A format with no percent sign in its first part: that part is copied,
    and the rest is formatted as if it stood alone. *)
Lemma doPrintf_literal (wrapErrs : bool) (lit : string) :
  noPercent lit = true ->
  forall (format : string) (argNum : nat) (reordered : bool) (a : list GoValue),
    doPrintf wrapErrs (S (String.length (lit +:+ format))) (lit +:+ format)
      argNum reordered a
    = lit +:+ doPrintf wrapErrs (S (String.length format)) format argNum reordered a.
Proof.
  induction lit as [|c lit IH]; intros Hlit format argNum reordered a;
    [reflexivity|].
  simpl in Hlit. apply andb_prop in Hlit as [Hc Hlit].
  rewrite !append_cons. simpl String.length. rewrite doPrintf_S, Hc.
  now rewrite IH.
Qed.

Lemma Sprintf_literal (lit format : string) (a : list GoValue) :
  noPercent lit = true ->
  Sprintf (lit +:+ format) a = lit +:+ Sprintf format a.
Proof. intros Hlit. unfold Sprintf. now apply doPrintf_literal. Qed.

(** [Sprintf("%s %s", x, y)] on two strings. *)
Lemma Sprintf_s_s (x y : string) :
  Sprintf "%s %s" [VString x; VString y] = x +:+ " " +:+ y.
Proof.
  unfold Sprintf. simpl String.length.
  rewrite doPrintf_S. cbn [negb Ascii.eqb Bool.eqb isLowerVerb nat_of_ascii].
  simpl. now rewrite append_nil_r.
Qed.

End FmtFacts.

(** ** The world *)

Section WorldFacts.
Import Sys.

Lemma add_output_nil (w : World) : add_output [] w = w.
Proof. destruct w. unfold add_output. simpl. now rewrite app_nil_r. Qed.

Lemma add_output_app (e1 e2 : list (log_Logger * string)) (w : World) :
  add_output e2 (add_output e1 w) = add_output (e1 ++ e2) w.
Proof. unfold add_output. simpl. now rewrite app_assoc. Qed.

End WorldFacts.

(** ** Emitting *)

Section Emit.
Context `{GoLib}.
Import Sys Logging.

Lemma rangeLoggers_ext (f g : Logger -> World -> World * option Panic)
    (lgs : list Logger) :
  (forall lg w, f lg w = g lg w) ->
  forall w, rangeLoggers f lgs w = rangeLoggers g lgs w.
Proof.
  intros Hfg. induction lgs as [|lg lgs IH]; intros w; [reflexivity|].
  simpl. rewrite Hfg. destruct (g lg w) as [w' [p|]]; [reflexivity | apply IH].
Qed.

(** The loop of both emit functions once the label is known: the sinks
    with [severity <= threshold] write, in order, and nothing else happens. *)
Lemma range_filter (sev : LogSeverity) (format : string) (v : list Fmt.GoValue)
    (lgs : list Logger) :
  Forall (fun lg => is_Some (rawLogger lg)) lgs ->
  forall w,
    rangeLoggers
      (fun lg w =>
         if severity lg >=? sev then log_Printf (logger lg) format v w
         else (w, None)) lgs w
    = (add_output
         (writes (Fmt.Sprintf format v) (filter (fun lg => sev <= severity lg) lgs)) w,
       None).
Proof.
  induction 1 as [|lg lgs [r Hr] _ IH]; intros w.
  - simpl. now rewrite add_output_nil.
  - simpl. rewrite filter_cons. destruct (Z.geb_spec (severity lg) sev) as [Hge|Hlt].
    + rewrite decide_True by lia. unfold logger. rewrite Hr. simpl.
      rewrite IH, add_output_app. unfold writes. simpl. now rewrite Hr.
    + rewrite decide_False by lia. apply IH.
Qed.

(** A severity above every threshold: the loop does nothing, whatever the
    body would do for a sink that qualifies. *)
Lemma range_none (sev : LogSeverity) (act : Logger -> World -> World * option Panic)
    (lgs : list Logger) (w : World) :
  Forall (fun lg => severity lg < sev) lgs ->
  rangeLoggers (fun lg w => if severity lg >=? sev then act lg w else (w, None)) lgs w
  = (w, None).
Proof.
  induction 1 as [|lg lgs Hlt _ IH]; [reflexivity|].
  simpl. destruct (Z.geb_spec (severity lg) sev); [lia | exact IH].
Qed.

Lemma label_noPercent (sev : LogSeverity) (label : string) :
  getLogTypeString sev = Ok label -> noPercent label = true.
Proof.
  unfold getLogTypeString.
  destruct (Z.to_nat (uint16 (sev / 10 - 1))) as [|[|[|[|[|[|n]]]]]];
    simpl; intros [= <-]; reflexivity.
Qed.

(** The format [writeMessagef] hands to [Printf], formatted. *)
Lemma Sprintf_label (label msg : string) (args : list Fmt.GoValue) :
  noPercent label = true ->
  Fmt.Sprintf (Fmt.Sprintf "%s %s" [VString label; VString msg]) args
  = label +:+ " " +:+ Fmt.Sprintf msg args.
Proof.
  intros Hl. rewrite Sprintf_s_s.
  rewrite (Sprintf_literal label), (Sprintf_literal " "); auto.
Qed.

(** C8. The formatted emit writes what the plain emit writes for the
    message formatted beforehand: whatever the dispatcher, the severity,
    the template, the operands and the world, [writeMessagef] and
    [writeMessage] on [Sprintf(msg, args...)] give the same world and the
    same outcome.  The label is outside the template: it holds no percent
    sign, so [Sprintf] copies it and formats the template as if alone. *)
Theorem writeMessagef_is_writeMessage_of_Sprintf
    (l : Log) (sev : LogSeverity) (msg : string) (args : list Fmt.GoValue)
    (w : World) :
  writeMessagef l sev msg args w = writeMessage l sev (Fmt.Sprintf msg args) w.
Proof.
  unfold writeMessagef, writeMessage. apply rangeLoggers_ext. clear w.
  intros lg w. destruct (severity lg >=? sev); [|reflexivity].
  destruct (getLogTypeString sev) as [label|p] eqn:Hlabel; [|reflexivity].
  unfold log_Printf. destruct (logger lg) as [r|]; [|reflexivity].
  rewrite Sprintf_label by eauto using label_noPercent.
  now rewrite Sprintf_s_s.
Qed.

(** The plain emit, for a severity with a label. *)
Lemma writeMessage_writes (l : Log) (sev : LogSeverity) (label msg : string)
    (w : World) :
  allRaw l ->
  getLogTypeString sev = Ok label ->
  writeMessage l sev msg w
  = (add_output
       (writes (label +:+ " " +:+ msg)
          (filter (fun lg => sev <= severity lg) (loggers l))) w, None).
Proof.
  intros Hraw Hlabel. unfold writeMessage. rewrite Hlabel.
  rewrite (range_filter sev "%s %s" [VString label; VString msg]) by exact Hraw.
  now rewrite Sprintf_s_s.
Qed.

(** C1. For a dispatcher whose sinks all have a raw logger and a severity
    with a label, the plain emit and the formatted emit hand the line to the
    raw loggers of exactly the sinks with [severity <= threshold], once each
    and in the dispatcher's order, change nothing else and do not panic; and
    when no sink qualifies the world is unchanged and there is no panic. *)
Theorem emit_filters_by_threshold
    (l : Log) (sev : LogSeverity) (label msg : string) (w : World) :
  allRaw l ->
  getLogTypeString sev = Ok label ->
  writeMessage l sev msg w
  = (add_output
       (writes (label +:+ " " +:+ msg)
          (filter (fun lg => sev <= severity lg) (loggers l))) w, None)
  /\ (forall args,
        writeMessagef l sev msg args w
        = (add_output
             (writes (label +:+ " " +:+ Fmt.Sprintf msg args)
                (filter (fun lg => sev <= severity lg) (loggers l))) w, None))
  /\ (Forall (fun lg => severity lg < sev) (loggers l) ->
      writeMessage l sev msg w = (w, None)
      /\ forall args, writeMessagef l sev msg args w = (w, None)).
Proof.
  intros Hraw Hlabel.
  split; [now apply writeMessage_writes|]. split.
  - intros args. unfold writeMessagef. rewrite Hlabel.
    rewrite (range_filter sev _ args) by exact Hraw.
    now rewrite Sprintf_label by eauto using label_noPercent.
  - intros Hnone. split; [|intros args]; apply range_none, Hnone.
Qed.

(** C7. For each of the six severities, the label is the severity's name
    followed by spaces up to seven characters, and the line handed to the
    raw logger of every sink that qualifies is the label, one space and the
    message. *)
Theorem line_is_padded_name_and_message (sev : LogSeverity) (name : string) :
  (sev, name) ∈ severityNames ->
  getLogTypeString sev = Ok (padRight 7 name)
  /\ String.length (padRight 7 name) = 7%nat
  /\ forall (l : Log) (msg : string) (w : World),
       allRaw l ->
       writeMessage l sev msg w
       = (add_output
            (writes (padRight 7 name +:+ " " +:+ msg)
               (filter (fun lg => sev <= severity lg) (loggers l))) w, None).
Proof.
  intros Hin.
  assert (Hlabel : getLogTypeString sev = Ok (padRight 7 name)
                   /\ String.length (padRight 7 name) = 7%nat).
  { unfold severityNames in Hin. rewrite !elem_of_cons, elem_of_nil in Hin.
    destruct_or!; simplify_eq; split; reflexivity. }
  destruct Hlabel as [Hlabel Hlen]. repeat split; [exact Hlabel | exact Hlen |].
  intros l msg w Hraw. now apply writeMessage_writes.
Qed.

Lemma printf_noIndexPanic (r : option log_Logger) (format : string)
    (v : list Fmt.GoValue) (w : World) :
  noIndexPanic (log_Printf r format v w).
Proof. destruct r; intros i n; simpl; discriminate. Qed.

Lemma rangeLoggers_noIndexPanic (body : Logger -> World -> World * option Panic)
    (lgs : list Logger) :
  (forall lg w, noIndexPanic (body lg w)) ->
  forall w, noIndexPanic (rangeLoggers body lgs w).
Proof.
  intros Hbody. induction lgs as [|lg lgs IH]; intros w; [intros i n; discriminate|].
  simpl. destruct (body lg w) as [w' [p|]] eqn:E; [|apply IH].
  specialize (Hbody lg w). now rewrite E in Hbody.
Qed.

Lemma writeMessage_noIndexPanic (l : Log) (sev : LogSeverity) (label msg : string)
    (w : World) :
  getLogTypeString sev = Ok label -> noIndexPanic (writeMessage l sev msg w).
Proof.
  intros Hlabel. apply rangeLoggers_noIndexPanic. intros lg w'.
  rewrite Hlabel. destruct (severity lg >=? sev);
    [apply printf_noIndexPanic | intros i n; discriminate].
Qed.

Lemma writeMessagef_noIndexPanic (l : Log) (sev : LogSeverity) (label msg : string)
    (args : list Fmt.GoValue) (w : World) :
  getLogTypeString sev = Ok label -> noIndexPanic (writeMessagef l sev msg args w).
Proof.
  intros Hlabel. apply rangeLoggers_noIndexPanic. intros lg w'.
  rewrite Hlabel. destruct (severity lg >=? sev);
    [apply printf_noIndexPanic | intros i n; discriminate].
Qed.

(** C9, as the code has it.  The label is [logStrings] at [severity/10-1]
    computed in [uint16]; the table has six entries.  For a [uint16]
    severity the index is in bounds exactly when [10 <= severity <= 69], and
    below 10 or from 70 on the lookup panics with that index.  The six
    constants are in bounds, and none of the thirteen public methods panics
    on an index out of range. *)
Theorem label_lookup_in_bounds_iff (sev : LogSeverity) :
  0 <= sev < 65536 ->
  ((exists label, getLogTypeString sev = Ok label) <-> 10 <= sev <= 69)
  /\ (sev < 10 \/ 70 <= sev ->
      getLogTypeString sev = Err (IndexOutOfRange (uint16 (sev / 10 - 1)) 6))
  /\ length logStrings = 6%nat
  /\ Forall (fun s => exists label, getLogTypeString s = Ok label)
       [Fatal; Error; Warning; Information; Debug; Verbose]
  /\ forall (l : Log) (msg : string) (args : list Fmt.GoValue) (err : option error)
       (w : World),
       noIndexPanic (Log_Fatal l msg w) /\ noIndexPanic (Log_Fatalf l msg args w)
       /\ noIndexPanic (Log_Error l msg w) /\ noIndexPanic (Log_Errorf l msg args w)
       /\ noIndexPanic (Log_Errore l err w)
       /\ noIndexPanic (Log_Warning l msg w) /\ noIndexPanic (Log_Warningf l msg args w)
       /\ noIndexPanic (Log_Info l msg w) /\ noIndexPanic (Log_Infof l msg args w)
       /\ noIndexPanic (Log_Debug l msg w) /\ noIndexPanic (Log_Debugf l msg args w)
       /\ noIndexPanic (Log_Verbose l msg w) /\ noIndexPanic (Log_Verbosef l msg args w).
Proof.
  intros Hrange.
  assert (Hidx : 10 <= sev <= 69 -> (Z.to_nat (uint16 (sev / 10 - 1)) < 6)%nat).
  { intros Hin. unfold uint16. rewrite Z.mod_small by (Z.div_mod_to_equations; lia).
    Z.div_mod_to_equations; lia. }
  assert (Hout : sev < 10 \/ 70 <= sev -> (6 <= Z.to_nat (uint16 (sev / 10 - 1)))%nat).
  { intros [Hlow|Hhigh]; unfold uint16.
    - replace (sev / 10 - 1) with (-1) by (Z.div_mod_to_equations; lia).
      change (-1 mod 65536) with 65535. lia.
    - rewrite Z.mod_small by (Z.div_mod_to_equations; lia).
      Z.div_mod_to_equations; lia. }
  assert (Herr : sev < 10 \/ 70 <= sev ->
            getLogTypeString sev = Err (IndexOutOfRange (uint16 (sev / 10 - 1)) 6)).
  { intros Hbad. unfold getLogTypeString.
    rewrite (lookup_ge_None_2 logStrings) by (apply Hout, Hbad). reflexivity. }
  split; [|split; [exact Herr|split; [reflexivity|split]]].
  - split.
    + intros [label Hlabel].
      destruct (decide (10 <= sev <= 69)) as [|Hbad]; [assumption|].
      rewrite Herr in Hlabel by lia. discriminate.
    + intros Hin. unfold getLogTypeString.
      destruct (lookup_lt_is_Some_2 logStrings _ (Hidx Hin)) as [label ->].
      now exists label.
  - repeat constructor; eexists; reflexivity.
  - intros l msg args err w.
    assert (He : noIndexPanic (Log_Errore l err w)).
    { destruct err as [e|]; [|intros i n; discriminate].
      eapply writeMessage_noIndexPanic. reflexivity. }
    repeat split; try exact He;
      first [ eapply writeMessage_noIndexPanic | eapply writeMessagef_noIndexPanic ];
      reflexivity.
Qed.

End Emit.

(** ** Errors and names built with fmt *)

Section Built.
Context `{GoLib}.
Import Sys Logging.

Lemma Errorf_plain : Errorf "unable to setup loggers" [] = errorString "unable to setup loggers".
Proof. reflexivity. Qed.

Lemma Errorf_invalid (kind : string) :
  Errorf "%s is invalid log type" [VString kind]
  = errorString (kind +:+ " is invalid log type").
Proof. unfold Errorf. simpl. reflexivity. Qed.

Lemma Errorf_directory (cause : string) :
  Errorf "failed to create logging directory: %s" [VString cause]
  = errorString ("failed to create logging directory: " +:+ cause).
Proof. unfold Errorf. simpl. now rewrite append_nil_r. Qed.

Lemma Errorf_file (cause : string) :
  Errorf "failed to create log file: %s" [VString cause]
  = errorString ("failed to create log file: " +:+ cause).
Proof. unfold Errorf. simpl. now rewrite append_nil_r. Qed.

Lemma rotatedName_eq (logFilePath : string) (now : Time.Time) :
  rotatedName logFilePath now
  = logFilePath +:+ "." +:+ Time.Format_20060102150405 now.
Proof.
  unfold rotatedName, Fmt.Sprintf. simpl String.length.
  rewrite doPrintf_S. cbn [negb Ascii.eqb Bool.eqb]. simpl.
  now rewrite append_nil_r.
Qed.

End Built.

(** ** The timestamp *)

Section Stamp.
Import Time.

Lemma allDigits_append (s1 s2 : string) :
  allDigits (s1 +:+ s2) = (allDigits s1 && allDigits s2)%bool.
Proof.
  induction s1 as [|c s1 IH]; [reflexivity|].
  rewrite append_cons. simpl. now rewrite IH, andb_assoc.
Qed.

Lemma fieldOk_below (width : nat) (bound : Z) :
  forallb (fun n => fieldOk width (Z.of_nat n)) (seq 0 (Z.to_nat bound)) = true ->
  forall x, 0 <= x < bound -> fieldOk width x = true.
Proof.
  intros Hall x Hx. rewrite forallb_forall in Hall.
  specialize (Hall (Z.to_nat x)). rewrite Z2Nat.id in Hall by lia.
  apply Hall, in_seq. lia.
Qed.

Lemma fieldOk_4 (x : Z) : 0 <= x <= 9999 -> fieldOk 4 x = true.
Proof.
  intros Hx. apply (fieldOk_below 4 10000); [vm_compute; reflexivity | lia].
Qed.

Lemma fieldOk_2 (x : Z) : 0 <= x <= 99 -> fieldOk 2 x = true.
Proof.
  intros Hx. apply (fieldOk_below 2 100); [vm_compute; reflexivity | lia].
Qed.

(** The suffix of a rotated file: fourteen digits, for a reading of the
    clock in the common era. *)
Lemma Format_14_digits (t : Time) :
  wellFormed t ->
  String.length (Format_20060102150405 t) = 14%nat
  /\ allDigits (Format_20060102150405 t) = true.
Proof.
  intros (Hy & Hmo & Hd & Hh & Hmi & Hs).
  pose proof (fieldOk_4 (year t) Hy) as Fy.
  pose proof (fieldOk_2 (month t) ltac:(lia)) as Fmo.
  pose proof (fieldOk_2 (day t) ltac:(lia)) as Fd.
  pose proof (fieldOk_2 (hour t) ltac:(lia)) as Fh.
  pose proof (fieldOk_2 (minute t) ltac:(lia)) as Fmi.
  pose proof (fieldOk_2 (second t) ltac:(lia)) as Fs.
  unfold fieldOk in *.
  apply andb_prop in Fy as [Ly Dy], Fmo as [Lmo Dmo], Fd as [Ld Dd],
    Fh as [Lh Dh], Fmi as [Lmi Dmi], Fs as [Ls Ds].
  apply Nat.eqb_eq in Ly, Lmo, Ld, Lh, Lmi, Ls.
  unfold Format_20060102150405. split.
  - rewrite !length_append, Ly, Lmo, Ld, Lh, Lmi, Ls. reflexivity.
  - rewrite !allDigits_append, Dy, Dmo, Dd, Dh, Dmi, Ds. reflexivity.
Qed.

End Stamp.

(** ** Setup: one entry *)

Section SetupItem.
Context `{GoLib}.
Import Sys Logging.

Lemma setupItem_invalid (item : LogConfig.Item) (w : World) :
  Strings.ToLower (LogConfig.LogType item) <> "file" ->
  Strings.ToLower (LogConfig.LogType item) <> "screen" ->
  setupItem item w
  = (w, Err (errorString (LogConfig.LogType item +:+ " is invalid log type"))).
Proof.
  intros Hf Hs. unfold setupItem.
  apply String.eqb_neq in Hf, Hs. rewrite Hf, Hs.
  now rewrite Errorf_invalid.
Qed.

Lemma setupItem_screen (item : LogConfig.Item) (w : World) :
  Strings.ToLower (LogConfig.LogType item) = "screen" ->
  setupItem item w = (w, Ok (screenLogger item)).
Proof. intros Hk. unfold setupItem. rewrite Hk. reflexivity. Qed.

Lemma setupItem_file (item : LogConfig.Item) (w : World) :
  Strings.ToLower (LogConfig.LogType item) = "file" ->
  setupItem item w
  = let '(w1, e) := createLogDir (path_Dir (LogConfig.Path item)) w in
    match e with
    | Some err =>
        (w1, Err (errorString ("failed to create logging directory: " +:+ Error_ err)))
    | None => openLogFile item w1
    end.
Proof.
  intros Hk. unfold setupItem, openLogFile. rewrite Hk. simpl.
  destruct (createLogDir (path_Dir (LogConfig.Path item)) w) as [w1 [err|]].
  - now rewrite Errorf_directory.
  - destruct (createLogFile (LogConfig.Path item) (LogConfig.Rotate item) w1)
      as [w2 [f|err]]; [reflexivity | now rewrite Errorf_file].
Qed.

(** C10. When [os.Stat] on the log directory fails with an error that is
    not "does not exist", [createLogDir] returns nil after that one call:
    [os.MkdirAll] is not called and the file system is as before; and
    [SetupLoggers]'s step for a file entry with that directory goes on to
    [createLogFile]. *)
Theorem createLogDir_ignores_other_stat_errors
    (path : string) (w w1 : World) (err : error) :
  os_Stat path w = (w1, Err err) ->
  os_IsNotExist err = false ->
  createLogDir path w = (w1, None)
  /\ calls w1 = (calls w ++ [Stat path])%list
  /\ nodes w1 = nodes w
  /\ forall item : LogConfig.Item,
       Strings.ToLower (LogConfig.LogType item) = "file" ->
       path_Dir (LogConfig.Path item) = path ->
       setupItem item w = openLogFile item w1.
Proof.
  intros Hstat Hne.
  assert (Hdir : createLogDir path w = (w1, None)).
  { unfold createLogDir. rewrite Hstat, Hne. reflexivity. }
  split; [exact Hdir|].
  assert (Hw1 : w1 = record_call (Stat path) w).
  { unfold os_Stat in Hstat. destruct (injected (Stat path) w);
      [|destruct (nodes w !! path)]; now inversion Hstat. }
  subst w1. repeat split.
  intros item Hk Hp. rewrite setupItem_file by exact Hk. now rewrite Hp, Hdir.
Qed.

(** C4. With no list of entries, or an empty one, [SetupLoggers] returns
    the error "unable to setup loggers"; the dispatcher is as before (no
    sink appended) and so is the world (no call made, no file created). *)
Theorem SetupLoggers_without_entries (l : Log) (w : World) :
  SetupLoggers l {| LogConfig.Loggers := None |} w
  = (w, l, Some (errorString "unable to setup loggers"))
  /\ SetupLoggers l {| LogConfig.Loggers := Some [] |} w
     = (w, l, Some (errorString "unable to setup loggers")).
Proof. split; reflexivity. Qed.

End SetupItem.

(** ** The file system under setup *)

Section Grows.
Import Sys.








End Grows.

(** ** Setup: the loop *)

Section SetupRange.
Context `{GoLib}.
Import Sys Logging.



Lemma kind_cases (item : LogConfig.Item) :
  Strings.ToLower (LogConfig.LogType item) = "file"
  \/ Strings.ToLower (LogConfig.LogType item) = "screen"
  \/ (Strings.ToLower (LogConfig.LogType item) <> "file"
      /\ Strings.ToLower (LogConfig.LogType item) <> "screen").
Proof.
  destruct (decide (Strings.ToLower (LogConfig.LogType item) = "file")); [auto|].
  destruct (decide (Strings.ToLower (LogConfig.LogType item) = "screen")); auto.
Qed.


Lemma setupItem_Ok (item : LogConfig.Item) (w w' : World) (lg : Logger) :
  setupItem item w = (w', Ok lg) -> builtFrom lg item.
Proof.
  destruct (kind_cases item) as [Hk|[Hk|[Hf Hs]]].
  - rewrite setupItem_file by exact Hk.
    destruct (createLogDir (path_Dir (LogConfig.Path item)) w) as [w1 [err|]];
      [discriminate|].
    unfold openLogFile.
    destruct (createLogFile (LogConfig.Path item) (LogConfig.Rotate item) w1)
      as [w2 [f|err]]; [|discriminate].
    intros [= _ <-]. right. eauto.
  - rewrite setupItem_screen by exact Hk. intros [= _ <-]. now left.
  - rewrite setupItem_invalid by assumption. discriminate.
Qed.

Lemma setupItem_Err_file (item : LogConfig.Item) (w w' : World) (e : error) :
  Strings.ToLower (LogConfig.LogType item) = "file" ->
  setupItem item w = (w', Err e) ->
  exists cause,
    e = errorString ("failed to create logging directory: " +:+ cause)
    \/ e = errorString ("failed to create log file: " +:+ cause).
Proof.
  intros Hk. rewrite setupItem_file by exact Hk.
  destruct (createLogDir (path_Dir (LogConfig.Path item)) w) as [w1 [err|]].
  - intros [= _ <-]. eauto.
  - unfold openLogFile.
    destruct (createLogFile (LogConfig.Path item) (LogConfig.Rotate item) w1)
      as [w2 [f|err]]; [discriminate|].
    intros [= _ <-]. eauto.
Qed.

Lemma setupRange_app (l : Log) (pre post : list LogConfig.Item) (w : World) :
  setupRange l (pre ++ post) w
  = match setupRange l pre w with
    | (w1, l1, None) => setupRange l1 post w1
    | stopped => stopped
    end.
Proof.
  revert l w. induction pre as [|item pre IH]; intros l w; [reflexivity|].
  simpl. destruct (setupItem item w) as [w' [lg|err]]; [apply IH | reflexivity].
Qed.

(** After a loop that ran to its end, the dispatcher holds what it held,
    followed by one sink for each entry, in the order of the entries. *)
Lemma setupRange_built (pre : list LogConfig.Item) :
  forall (l l1 : Log) (w w1 : World),
    setupRange l pre w = (w1, l1, None) ->
    exists built, loggers l1 = (loggers l ++ built)%list /\ Forall2 builtFrom built pre.
Proof.
  induction pre as [|item pre IH]; intros l l1 w w1.
  - intros [= _ <-]. exists []. split; [now rewrite app_nil_r | constructor].
  - simpl. destruct (setupItem item w) as [w' [lg|err]] eqn:Hi; [|discriminate].
    intros Hrest. apply IH in Hrest as (built & Hl & Hb). simpl in Hl.
    exists (lg :: built). split.
    + now rewrite Hl, <- app_assoc.
    + constructor; [eapply setupItem_Ok, Hi | exact Hb].
Qed.

Lemma builtFrom_raw (lg : Logger) (item : LogConfig.Item) :
  builtFrom lg item -> is_Some (rawLogger lg).
Proof. intros [[_ ->]|[_ [f ->]]]; simpl; eauto. Qed.

(** Every sink [SetupLoggers] appends has a raw logger, also when it stops
    at an error: the dispatchers it produces are those of [allRaw]. *)
Lemma setupRange_allRaw (items : list LogConfig.Item) :
  forall (l l' : Log) (w w' : World) (e : option error),
    allRaw l -> setupRange l items w = (w', l', e) -> allRaw l'.
Proof.
  induction items as [|item items IH]; intros l l' w w' e Hl.
  - now intros [= _ <- _].
  - simpl. destruct (setupItem item w) as [w1 [lg|err]] eqn:Hi.
    + apply IH. unfold allRaw in *. simpl. apply Forall_app. split; [exact Hl|].
      repeat constructor. eapply builtFrom_raw, setupItem_Ok, Hi.
    + now intros [= _ <- _].
Qed.

Lemma SetupLoggers_allRaw (l l' : Log) (cfg : LogConfig.t) (w w' : World)
    (e : option error) :
  allRaw l -> SetupLoggers l cfg w = (w', l', e) -> allRaw l'.
Proof.
  intros Hl. unfold SetupLoggers. destruct (LogConfig.Loggers cfg) as [items|].
  - destruct (length items =? 0)%nat; [now intros [= _ <- _]|].
    now apply setupRange_allRaw.
  - now intros [= _ <- _].
Qed.

Lemma SetupLoggers_cons (l : Log) (items : list LogConfig.Item) (w : World) :
  items <> [] ->
  SetupLoggers l {| LogConfig.Loggers := Some items |} w = setupRange l items w.
Proof. destruct items; [congruence | reflexivity]. Qed.

(** C5. An entry whose kind, in lower case, is neither "file" nor "screen"
    makes [SetupLoggers] fail, wherever it stands after entries that were
    set up, with the error made of the entry's kind string as written
    followed by " is invalid log type", and without any call for that
    entry.  A "screen" entry gives its logger at once; a "file" entry gives
    a file logger or one of the two errors of the file steps. *)
Theorem kind_resolution (item : LogConfig.Item) :
  (Strings.ToLower (LogConfig.LogType item) <> "file" ->
   Strings.ToLower (LogConfig.LogType item) <> "screen" ->
   forall (l l1 : Log) (pre post : list LogConfig.Item) (w w1 : World),
     setupRange l pre w = (w1, l1, None) ->
     SetupLoggers l {| LogConfig.Loggers := Some (pre ++ item :: post)%list |} w
     = (w1, l1,
        Some (errorString (LogConfig.LogType item +:+ " is invalid log type"))))
  /\ (Strings.ToLower (LogConfig.LogType item) = "screen" ->
      forall w : World, setupItem item w = (w, Ok (screenLogger item)))
  /\ (Strings.ToLower (LogConfig.LogType item) = "file" ->
      forall (w w' : World) (r : res error Logger),
        setupItem item w = (w', r) ->
        match r with
        | Ok lg => exists f : Sys.File, lg = fileLogger item f
        | Err e =>
            exists cause,
              e = errorString ("failed to create logging directory: " +:+ cause)
              \/ e = errorString ("failed to create log file: " +:+ cause)
        end).
Proof.
  split; [|split].
  - intros Hf Hs l l1 pre post w w1 Hpre.
    rewrite SetupLoggers_cons by (now destruct pre).
    rewrite setupRange_app, Hpre. simpl.
    now rewrite setupItem_invalid by assumption.
  - intros Hk w. now apply setupItem_screen.
  - intros Hk w w' [lg|e] Hi.
    + apply setupItem_Ok in Hi as [[Hs _]|[_ Hf]]; [congruence | exact Hf].
    + eapply setupItem_Err_file; eauto.
Qed.


End SetupRange.

(** ** Creating and rotating the log file *)

Section LogFile.
Context `{GoLib}.
Import Sys Logging.

Lemma backupName_neq (path : string) (w : World) : backupName path w <> path.
Proof.
  unfold backupName. intros Heq. apply (f_equal String.length) in Heq.
  rewrite length_append, append_cons in Heq. simpl in Heq. lia.
Qed.

Lemma os_Stat_found (path : string) (n : Node) (w : World) :
  nodes w !! path = Some n ->
  injected (Stat path) w = None ->
  os_Stat path w = (record_call (Stat path) w, Ok n).
Proof. intros Hn Hi. unfold os_Stat. now rewrite Hi, Hn. Qed.

Lemma os_Stat_world (path : string) (w w' : World) (r : res error Node) :
  os_Stat path w = (w', r) -> w' = record_call (Stat path) w.
Proof.
  unfold os_Stat. destruct (injected (Stat path) w); [|destruct (nodes w !! path)];
    now intros [= <- _].
Qed.

Lemma os_Rename_failed (old new : string) (w w' : World) (err : error) :
  os_Rename old new w = (w', Some err) -> w' = record_call (Rename old new) w.
Proof.
  unfold os_Rename. destruct (injected (Rename old new) w); [now intros [= <- _]|].
  destruct (nodes w !! old) as [[c|]|]; destruct (nodes w !! new) as [[c'|]|];
    intros [= <-]; reflexivity.
Qed.

Lemma os_Create_Ok (path : string) (w w' : World) (f : Sys.File) :
  os_Create path w = (w', Ok f) ->
  nodes w' !! path = Some (NFile "") /\ name f = path
  /\ last (calls w') = Some (Create path).
Proof.
  unfold os_Create. destruct (injected (Create path) w); [discriminate|].
  destruct (nodes w !! path) as [[c|]|]; intros [= <- <-]; simpl;
    rewrite ?lookup_insert_eq, ?last_snoc; auto.
Qed.

Lemma os_Create_last (path : string) (w w' : World) (r : res error Sys.File) :
  os_Create path w = (w', r) -> last (calls w') = Some (Create path).
Proof.
  unfold os_Create. destruct (injected (Create path) w);
    [|destruct (nodes w !! path) as [[c|]|]]; intros [= <- _]; simpl;
    apply last_snoc.
Qed.

(** How [createLogFile] ends: in [os.Create] on the path, or with the error
    of [os.Stat] (other than "does not exist"), or, when rotating, with the
    error of [os.Rename]. *)
Lemma createLogFile_ends (path : string) (rotate : bool) (w w' : World)
    (r : res error Sys.File) :
  createLogFile path rotate w = (w', r) ->
  (exists w0, os_Create path w0 = (w', r))
  \/ (exists err, r = Err err /\ os_IsNotExist err = false
                  /\ os_Stat path w = (w', Err err))
  \/ (rotate = true
      /\ exists err w0 new, r = Err err /\ os_Rename path new w0 = (w', Some err)).
Proof.
  unfold createLogFile. destruct (os_Stat path w) as [w1 [n|err]] eqn:Hs.
  - destruct rotate; [|eauto].
    destruct (time_Now w1) as [w2 now].
    destruct (os_Rename path (rotatedName path now) w2) as [w3 [err|]] eqn:Hr;
      [|eauto].
    intros [= <- <-]. right. right. eauto 10.
  - destruct (os_IsNotExist err) eqn:Hne; [eauto|].
    intros [= <- <-]. right. left. eauto.
Qed.

(** C2. [createLogFile] ends in [os.Create] on the path unless [os.Stat] or
    the rotation's [os.Rename] failed, whatever the rotate flag; when it
    succeeds the path holds an empty file and the handle returned is open on
    it.  Without rotation and with a file already at the path, it is
    [os.Stat] then [os.Create]: no rename is made, and when neither call is
    made to fail the file system differs only at the path, which holds an
    empty file. *)
Theorem createLogFile_recreates (path : string) (rotate : bool) (w : World) :
  (forall (w' : World) (r : res error Sys.File),
     createLogFile path rotate w = (w', r) ->
     (last (calls w') = Some (Create path) /\ exists w0, os_Create path w0 = (w', r))
     \/ (exists err, r = Err err /\ os_IsNotExist err = false
                     /\ os_Stat path w = (w', Err err))
     \/ (rotate = true
         /\ exists err w0 new,
              r = Err err /\ os_Rename path new w0 = (w', Some err)))
  /\ (forall (w' : World) (f : Sys.File),
        createLogFile path rotate w = (w', Ok f) ->
        nodes w' !! path = Some (NFile "") /\ name f = path)
  /\ (forall (w1 : World) (n : Node),
        os_Stat path w = (w1, Ok n) ->
        createLogFile path false w = os_Create path w1)
  /\ (forall c : string,
        nodes w !! path = Some (NFile c) ->
        injected (Stat path) w = None ->
        fault w (S (length (calls w))) (Create path) = None ->
        createLogFile path false w
        = ({| nodes := <[path := NFile ""]> (nodes w); fault := fault w;
              clock := clock w; ticks := ticks w; next_fd := S (next_fd w);
              calls := (calls w ++ [Stat path; Create path])%list;
              output := output w |},
           Ok {| fd := next_fd w; name := path |})).
Proof.
  split; [|split; [|split]].
  - intros w' r Hc. destruct (createLogFile_ends _ _ _ _ _ Hc) as [[w0 Hw0]|[Hs|Hr]];
      [left | right; left; exact Hs | right; right; exact Hr].
    split; [eapply os_Create_last, Hw0 | eauto].
  - intros w' f Hc.
    destruct (createLogFile_ends _ _ _ _ _ Hc) as [[w0 Hw0]|[(e & He & _)|(_ & e & ? & ? & He & _)]];
      [|discriminate|discriminate].
    apply os_Create_Ok in Hw0. tauto.
  - intros w1 n Hs. unfold createLogFile. now rewrite Hs.
  - intros c Hn Hi Hf. unfold createLogFile.
    rewrite (os_Stat_found path (NFile c)) by assumption.
    unfold os_Create, injected. simpl.
    rewrite length_app, Nat.add_1_r, Hf, Hn. simpl.
    now rewrite <- app_assoc.
Qed.

(** C3. With rotation, a file at the path and [os.Stat] not made to fail:
    the new name is the path, a dot and the clock reading, fourteen digits
    for a reading in the common era.  If [os.Rename] fails, [createLogFile]
    returns its error, [os.Create] is not called, the file system is as it
    was, and the step of [SetupLoggers] fails with that error's text after
    "failed to create log file: ".  If neither [os.Rename] nor [os.Create]
    is made to fail and no directory has the new name, the old file is at
    the new name, the path holds an empty file, every other path is as it
    was, and the handle returned is open on the path. *)
Theorem createLogFile_rotates (path c : string) (w : World) :
  nodes w !! path = Some (NFile c) ->
  injected (Stat path) w = None ->
  rotatedName path (clock w (ticks w)) = backupName path w
  /\ (Time.wellFormed (clock w (ticks w)) ->
      exists stamp,
        backupName path w = path +:+ "." +:+ stamp
        /\ String.length stamp = 14%nat /\ Time.allDigits stamp = true)
  /\ (forall (w3 : World) (err : error),
        os_Rename path (backupName path w) (time_Now (record_call (Stat path) w)).1
        = (w3, Some err) ->
        createLogFile path true w = (w3, Err err)
        /\ calls w3 = (calls w ++ [Stat path; Rename path (backupName path w)])%list
        /\ nodes w3 = nodes w
        /\ forall (item : LogConfig.Item) (w0 : World),
             Strings.ToLower (LogConfig.LogType item) = "file" ->
             LogConfig.Path item = path ->
             LogConfig.Rotate item = true ->
             createLogDir (path_Dir path) w0 = (w, None) ->
             setupItem item w0
             = (w3, Err (errorString ("failed to create log file: " +:+ Error_ err))))
  /\ (fault w (S (length (calls w))) (Rename path (backupName path w)) = None ->
      fault w (S (S (length (calls w)))) (Create path) = None ->
      nodes w !! backupName path w <> Some NDir ->
      exists w' : World,
        createLogFile path true w = (w', Ok {| fd := next_fd w; name := path |})
        /\ nodes w'
           = <[path := NFile ""]>
               (<[backupName path w := NFile c]> (delete path (nodes w)))
        /\ calls w'
           = (calls w ++ [Stat path; Rename path (backupName path w); Create path])%list
        /\ nodes w' !! path = Some (NFile "")
        /\ nodes w' !! backupName path w = Some (NFile c)
        /\ forall q, q <> path -> q <> backupName path w ->
             nodes w' !! q = nodes w !! q).
Proof.
  intros Hn Hi.
  assert (Hname : rotatedName path (clock w (ticks w)) = backupName path w)
    by apply rotatedName_eq.
  assert (Hstart :
    createLogFile path true w
    = (let '(w3, e) :=
         os_Rename path (backupName path w) (time_Now (record_call (Stat path) w)).1 in
       match e with
       | Some err => (w3, Err err)
       | None => os_Create path w3
       end)).
  { unfold createLogFile.
    rewrite (os_Stat_found path (NFile c)) by assumption.
    unfold time_Now. cbn -[os_Rename os_Create rotatedName backupName].
    now rewrite Hname. }
  split; [exact Hname|]. split; [|split].
  - intros Hwf. exists (Time.Format_20060102150405 (clock w (ticks w))).
    destruct (Format_14_digits _ Hwf). auto.
  - intros w3 err Hr. assert (Hc : createLogFile path true w = (w3, Err err))
      by now rewrite Hstart, Hr.
    pose proof (os_Rename_failed _ _ _ _ _ Hr) as ->.
    split; [exact Hc|]. split; [simpl; now rewrite <- app_assoc|].
    split; [reflexivity|].
    intros item w0 Hk Hp Hrot Hdir. rewrite setupItem_file by exact Hk.
    unfold openLogFile. now rewrite Hp, Hdir, Hrot, Hc.
  - intros Hfr Hfc Hnd.
    pose proof (backupName_neq path w) as Hneq.
    rewrite Hstart. unfold os_Rename, injected. simpl.
    rewrite length_app, Nat.add_1_r, Hfr, Hn.
    assert (Hmoved :
      (let '(w3, e) :=
         match nodes w !! backupName path w with
         | Some NDir =>
             (record_call (Rename path (backupName path w))
                (time_Now (record_call (Stat path) w)).1,
              Some (LinkError "rename" path (backupName path w) EEXIST))
         | _ =>
             (set_nodes (<[backupName path w := NFile c]> (delete path (nodes w)))
                (record_call (Rename path (backupName path w))
                   (time_Now (record_call (Stat path) w)).1), None)
         end in
       match e with
       | Some err => (w3, Err err)
       | None => os_Create path w3
       end)
      = os_Create path
          (set_nodes (<[backupName path w := NFile c]> (delete path (nodes w)))
             (record_call (Rename path (backupName path w))
                (time_Now (record_call (Stat path) w)).1))).
    { destruct (nodes w !! backupName path w) as [[c'|]|]; congruence. }
    simpl in Hmoved. simpl. rewrite Hmoved. clear Hmoved.
    unfold os_Create, injected. simpl.
    rewrite !length_app. simpl.
    replace (length (calls w) + 1 + 1)%nat with (S (S (length (calls w)))) by lia.
    rewrite Hfc.
    rewrite lookup_insert_ne, lookup_delete_eq by exact Hneq.
    eexists. split; [reflexivity|]. simpl.
    split; [reflexivity|]. split; [now rewrite <- !app_assoc|].
    split; [apply lookup_insert_eq|]. split.
    + rewrite lookup_insert_ne by auto. apply lookup_insert_eq.
    + intros q Hq1 Hq2. now rewrite !lookup_insert_ne, lookup_delete_ne by auto.
Qed.

End LogFile.


(** ** Emitting: further properties *)


Section EmitMore.
Context `{GoLib}.
Import Sys Logging.






Lemma range_unlabelled (sev : LogSeverity) (p : Panic) (lgs : list Logger)
    (act : Logger -> string -> World -> World * option Panic) (w : World) :
  getLogTypeString sev = Err p ->
  rangeLoggers
    (fun lg w =>
       if severity lg >=? sev then
         match getLogTypeString sev with
         | Err p => (w, Some p)
         | Ok label => act lg label w
         end
       else (w, None)) lgs w
  = (w, if decide (Exists (fun lg => sev <= severity lg) lgs) then Some p else None).
Proof.
  intros Hp. rewrite Hp. induction lgs as [|lg lgs IH].
  - cbn [rangeLoggers].
    destruct (decide (Exists (fun lg => sev <= severity lg) [])) as [Hex|_];
      [inversion Hex | reflexivity].
  - cbn [rangeLoggers].
    destruct (Z.geb_spec (severity lg) sev) as [Hge|Hlt].
    + destruct (decide (Exists (fun lg => sev <= severity lg) (lg :: lgs)))
        as [_|Hno]; [reflexivity|]. exfalso. apply Hno. constructor. lia.
    + rewrite IH.
      destruct (decide (Exists (fun lg => sev <= severity lg) lgs)) as [Hex|Hno];
        destruct (decide (Exists (fun lg => sev <= severity lg) (lg :: lgs)))
          as [Hex'|Hno']; try reflexivity.
      * exfalso. apply Hno'. now constructor.
      * exfalso. apply Exists_cons in Hex' as [?|?]; [lia | contradiction].
Qed.

(** X2. A severity outside the table writes nothing: when the label lookup
    panics, both emit functions leave the world as it was, and they panic
    (with the lookup's panic) exactly when some sink has a threshold at or
    above the severity; with no such sink they return normally. *)
Theorem emit_unlabelled_severity
    (l : Log) (sev : LogSeverity) (p : Panic) (msg : string)
    (args : list Fmt.GoValue) (w : World) :
  getLogTypeString sev = Err p ->
  writeMessage l sev msg w
  = (w, if decide (Exists (fun lg => sev <= severity lg) (loggers l))
        then Some p else None)
  /\ writeMessagef l sev msg args w
     = (w, if decide (Exists (fun lg => sev <= severity lg) (loggers l))
           then Some p else None).
Proof.
  intros Hp. split.
  - apply (range_unlabelled sev p (loggers l)
             (fun lg label w =>
                log_Printf (logger lg) "%s %s" [VString label; VString msg] w) w Hp).
  - apply (range_unlabelled sev p (loggers l)
             (fun lg label w =>
                log_Printf (logger lg)
                  (Fmt.Sprintf "%s %s" [VString label; VString msg]) args w) w Hp).
Qed.

Lemma writes_fst (line : string) (lgs : list Logger) :
  (writes line lgs).*1 = omap rawLogger lgs.
Proof.
  unfold writes. induction (omap rawLogger lgs) as [|r rs IH]; [reflexivity|].
  simpl. now f_equal.
Qed.

Lemma sublist_omap {A B : Type} (f : A -> option B) (l1 l2 : list A) :
  sublist l1 l2 -> sublist (omap f l1) (omap f l2).
Proof.
  induction 1 as [|x l1 l2 _ IH|x l1 l2 _ IH]; simpl.
  - constructor.
  - destruct (f x); [now constructor | exact IH].
  - destruct (f x); [now constructor | exact IH].
Qed.

Lemma sublist_filter_le (s s' : LogSeverity) (lgs : list Logger) :
  s' <= s ->
  sublist (filter (fun lg => s <= severity lg) lgs)
          (filter (fun lg => s' <= severity lg) lgs).
Proof.
  intros Hle. induction lgs as [|lg lgs IH]; [constructor|].
  rewrite !filter_cons.
  destruct (decide (s <= severity lg)) as [Hs|Hs].
  - rewrite decide_True by lia. now constructor.
  - destruct (decide (s' <= severity lg)); [now constructor | exact IH].
Qed.

(** X3. A more severe message reaches at least the same sinks: for two
    severities with labels, [s'] at most [s], the raw loggers written by an
    emit at [s] are, in order, among those written by an emit at [s']. *)
Theorem more_severe_reaches_more
    (l : Log) (s s' : LogSeverity) (label label' msg msg' : string) (w : World) :
  allRaw l ->
  getLogTypeString s = Ok label ->
  getLogTypeString s' = Ok label' ->
  s' <= s ->
  exists e e',
    writeMessage l s msg w = (add_output e w, None)
    /\ writeMessage l s' msg' w = (add_output e' w, None)
    /\ sublist e.*1 e'.*1.
Proof.
  intros Hraw Hl Hl' Hle.
  eexists _, _. split; [exact (writeMessage_writes l s label msg w Hraw Hl)|].
  split; [exact (writeMessage_writes l s' label' msg' w Hraw Hl')|].
  rewrite !writes_fst. now apply sublist_omap, sublist_filter_le.
Qed.

(** The formatted emit, for a severity with a label. *)
Lemma writeMessagef_writes (l : Log) (sev : LogSeverity) (label msg : string)
    (args : list Fmt.GoValue) (w : World) :
  allRaw l ->
  getLogTypeString sev = Ok label ->
  writeMessagef l sev msg args w
  = (add_output
       (writes (label +:+ " " +:+ Fmt.Sprintf msg args)
          (filter (fun lg => sev <= severity lg) (loggers l))) w, None).
Proof.
  intros Hraw Hlabel. unfold writeMessagef. rewrite Hlabel.
  rewrite (range_filter sev _ args) by exact Hraw.
  now rewrite Sprintf_label by eauto using label_noPercent.
Qed.

(** X4. A dispatcher whose sinks all have a threshold below 10 (the zero
    value of a severity left out of the configuration, for one) is mute:
    the twelve methods that take a message, and [Errore] on an error that
    is not nil, leave the world as it was and return normally.  [Errore] on
    the nil error panics on the nil dereference, whatever the thresholds. *)
Theorem low_thresholds_are_mute
    (l : Log) (msg : string) (args : list Fmt.GoValue) (err : error) (w : World) :
  Forall (fun lg => severity lg < 10) (loggers l) ->
  Log_Fatal l msg w = (w, None) /\ Log_Fatalf l msg args w = (w, None)
  /\ Log_Error l msg w = (w, None) /\ Log_Errorf l msg args w = (w, None)
  /\ Log_Errore l (Some err) w = (w, None)
  /\ Log_Errore l None w = (w, Some NilDereference)
  /\ Log_Warning l msg w = (w, None) /\ Log_Warningf l msg args w = (w, None)
  /\ Log_Info l msg w = (w, None) /\ Log_Infof l msg args w = (w, None)
  /\ Log_Debug l msg w = (w, None) /\ Log_Debugf l msg args w = (w, None)
  /\ Log_Verbose l msg w = (w, None) /\ Log_Verbosef l msg args w = (w, None).
Proof.
  intros Hlow.
  assert (Hbelow : forall sev, 10 <= sev ->
            Forall (fun lg => severity lg < sev) (loggers l)).
  { intros sev Hsev. eapply Forall_impl; [exact Hlow|]. simpl. intros lg Hlg. lia. }
  unfold Log_Errore, Log_Fatal, Log_Fatalf, Log_Error, Log_Errorf, Log_Warning,
    Log_Warningf, Log_Info, Log_Infof, Log_Debug, Log_Debugf, Log_Verbose,
    Log_Verbosef.
  repeat split; try reflexivity; apply range_none, Hbelow; vm_compute; discriminate.
Qed.

(** X5. Each public method emits at its own severity under its own label:
    for a dispatcher whose sinks have raw loggers, [Fatal] hands
    ["FATAL   " + msg] to the sinks with threshold at least 10, [Error] and
    [Errore] (on the text of an error that is not nil) ["ERROR   " + ...]
    from 20, [Warning] from 30, [Info] from 40, [Debug] from 50 and
    [Verbose] from 60; the formatted methods do the same with
    [Sprintf(msg, args...)] as message.  [Errore] on the nil error writes
    nothing and panics on the nil dereference. *)
Theorem public_methods_lines
    (l : Log) (msg : string) (args : list Fmt.GoValue) (err : error) (w : World) :
  allRaw l ->
  let sent (sev : Z) (line : string) :=
    (add_output (writes line (filter (fun lg => sev <= severity lg) (loggers l))) w,
     @None Panic) in
  Log_Fatal l msg w = sent 10 ("FATAL   " +:+ msg)
  /\ Log_Error l msg w = sent 20 ("ERROR   " +:+ msg)
  /\ Log_Errore l (Some err) w = sent 20 ("ERROR   " +:+ Error_ err)
  /\ Log_Errore l None w = (w, Some NilDereference)
  /\ Log_Warning l msg w = sent 30 ("WARNING " +:+ msg)
  /\ Log_Info l msg w = sent 40 ("INFO    " +:+ msg)
  /\ Log_Debug l msg w = sent 50 ("DEBUG   " +:+ msg)
  /\ Log_Verbose l msg w = sent 60 ("VERBOSE " +:+ msg)
  /\ Log_Fatalf l msg args w = sent 10 ("FATAL   " +:+ Fmt.Sprintf msg args)
  /\ Log_Errorf l msg args w = sent 20 ("ERROR   " +:+ Fmt.Sprintf msg args)
  /\ Log_Warningf l msg args w = sent 30 ("WARNING " +:+ Fmt.Sprintf msg args)
  /\ Log_Infof l msg args w = sent 40 ("INFO    " +:+ Fmt.Sprintf msg args)
  /\ Log_Debugf l msg args w = sent 50 ("DEBUG   " +:+ Fmt.Sprintf msg args)
  /\ Log_Verbosef l msg args w = sent 60 ("VERBOSE " +:+ Fmt.Sprintf msg args).
Proof.
  intros Hraw sent.
  split; [exact (writeMessage_writes l Fatal "FATAL  " msg w Hraw eq_refl)|].
  split; [exact (writeMessage_writes l Error "ERROR  " msg w Hraw eq_refl)|].
  split; [exact (writeMessage_writes l Error "ERROR  " (Error_ err) w Hraw eq_refl)|].
  split; [reflexivity|].
  split; [exact (writeMessage_writes l Warning "WARNING" msg w Hraw eq_refl)|].
  split; [exact (writeMessage_writes l Information "INFO   " msg w Hraw eq_refl)|].
  split; [exact (writeMessage_writes l Debug "DEBUG  " msg w Hraw eq_refl)|].
  split; [exact (writeMessage_writes l Verbose "VERBOSE" msg w Hraw eq_refl)|].
  split; [exact (writeMessagef_writes l Fatal "FATAL  " msg args w Hraw eq_refl)|].
  split; [exact (writeMessagef_writes l Error "ERROR  " msg args w Hraw eq_refl)|].
  split; [exact (writeMessagef_writes l Warning "WARNING" msg args w Hraw eq_refl)|].
  split; [exact (writeMessagef_writes l Information "INFO   " msg args w Hraw eq_refl)|].
  split; [exact (writeMessagef_writes l Debug "DEBUG  " msg args w Hraw eq_refl)|].
  exact (writeMessagef_writes l Verbose "VERBOSE" msg args w Hraw eq_refl).
Qed.

Lemma Sprintf_no_percent (s : string) : noPercent s = true -> Fmt.Sprintf s [] = s.
Proof.
  intros Hs. rewrite <- (append_nil_r s) at 1.
  rewrite Sprintf_literal by exact Hs. unfold Fmt.Sprintf. simpl.
  apply append_nil_r.
Qed.

(** X6. Without operands and without a percent sign in the message the
    formatted emit is the plain emit: same world, same outcome, whatever
    the dispatcher and the severity. *)
Theorem formatted_emit_without_operands
    (l : Log) (sev : LogSeverity) (msg : string) (w : World) :
  noPercent msg = true ->
  writeMessagef l sev msg [] w = writeMessage l sev msg w.
Proof.
  intros Hmsg. unfold writeMessagef, writeMessage. apply rangeLoggers_ext.
  intros lg w'. destruct (severity lg >=? sev); [|reflexivity].
  destruct (getLogTypeString sev) as [label|p] eqn:Hlabel; [|reflexivity].
  unfold log_Printf. destruct (logger lg); [|reflexivity].
  rewrite Sprintf_label by eauto using label_noPercent.
  now rewrite Sprintf_s_s, Sprintf_no_percent.
Qed.

End EmitMore.

(** ** Setup: further properties *)

Section SetupMore.
Context `{GoLib}.
Import Sys Logging.








(** The loop, whatever its outcome: the sinks it held, then one sink for
    each of the first entries, in order; all of them when it ran to its
    end. *)
Lemma setupRange_prefix (items : list LogConfig.Item) :
  forall (l : Log) (w : World),
    exists built,
      loggers (setupRange l items w).1.2 = (loggers l ++ built)%list
      /\ Forall2 builtFrom built (take (length built) items)
      /\ ((setupRange l items w).2 = None -> length built = length items).
Proof.
  induction items as [|item items IH]; intros l w.
  - exists []. simpl. rewrite app_nil_r.
    split; [reflexivity|]. split; [constructor | reflexivity].
  - simpl. destruct (setupItem item w) as [w1 [lg|err]] eqn:Hi.
    + destruct (IH {| loggers := loggers l ++ [lg] |} w1) as (built & Hl & Hb & He).
      exists (lg :: built). simpl in Hl. rewrite Hl, <- app_assoc. simpl.
      split; [reflexivity|]. split.
      * constructor; [eapply setupItem_Ok, Hi | exact Hb].
      * intros Hnone. now rewrite He.
    + exists []. simpl. rewrite app_nil_r.
      split; [reflexivity|]. split; [constructor | discriminate].
Qed.

(** X7. [SetupLoggers] only appends to the dispatcher, whatever its
    outcome: the sinks present before the call stay first and in order (a
    second call adds to the first, it does not replace it); they are
    followed by one sink for each of the first entries, in the order of the
    configuration, and for all entries when nil is returned. *)
Theorem SetupLoggers_appends (l : Log) (cfg : LogConfig.t) (w : World) :
  exists built,
    loggers (SetupLoggers l cfg w).1.2 = (loggers l ++ built)%list
    /\ Forall2 builtFrom built
         (take (length built) (default [] (LogConfig.Loggers cfg)))
    /\ ((SetupLoggers l cfg w).2 = None ->
        length built = length (default [] (LogConfig.Loggers cfg))
        /\ (0 < length built)%nat).
Proof.
  unfold SetupLoggers. destruct (LogConfig.Loggers cfg) as [items|]; simpl.
  - destruct items as [|item items].
    + exists []. simpl. rewrite app_nil_r.
      split; [reflexivity|]. split; [constructor | discriminate].
    + change (length (item :: items) =? 0)%nat with false. cbv iota.
      destruct (setupRange_prefix (item :: items) l w) as (built & Hl & Hb & He).
      exists built. split; [exact Hl|]. split; [exact Hb|].
      intros Hnone. rewrite (He Hnone). simpl. split; [reflexivity | lia].
  - exists []. simpl. rewrite app_nil_r.
    split; [reflexivity|]. split; [constructor | discriminate].
Qed.

(** X8. What a sink that was set up holds: the entry's severity as it is,
    an empty [prefix] field of its own, and a raw logger with the entry's
    prefix as written and the flags date, time and microseconds (7).  For a
    "screen" entry the raw logger writes to the standard output and the
    world is untouched; for a "file" entry it writes to a file opened on the
    entry's path, which holds an empty file after the step. *)
Theorem setupItem_sink (item : LogConfig.Item) (w : World) :
  forall (w' : World) (lg : Logger),
    setupItem item w = (w', Ok lg) ->
    severity lg = LogConfig.Severity item
    /\ prefix lg = ""
    /\ exists r : log_Logger,
         rawLogger lg = Some r
         /\ log_prefix r = LogConfig.Prefix item
         /\ log_flag r = 7
         /\ ((Strings.ToLower (LogConfig.LogType item) = "screen"
              /\ logType lg = 2 /\ log_out r = Stdout /\ w' = w)
             \/ (Strings.ToLower (LogConfig.LogType item) = "file"
                 /\ logType lg = 1
                 /\ exists f : Sys.File,
                      log_out r = FileWriter f
                      /\ name f = LogConfig.Path item
                      /\ nodes w' !! LogConfig.Path item = Some (NFile ""))).
Proof.
  intros w' lg. destruct (kind_cases item) as [Hk|[Hk|[Hf Hs]]].
  - rewrite setupItem_file by exact Hk.
    destruct (createLogDir (path_Dir (LogConfig.Path item)) w) as [w1 [err|]];
      [discriminate|].
    unfold openLogFile.
    destruct (createLogFile (LogConfig.Path item) (LogConfig.Rotate item) w1)
      as [w2 [f|err]] eqn:Hc; [|discriminate].
    intros [= <- <-].
    destruct (createLogFile_ends _ _ _ _ _ Hc)
      as [[w0 Hw0]|[(e & He & _)|(_ & e & ? & ? & He & _)]];
      [|discriminate|discriminate].
    apply os_Create_Ok in Hw0 as (Hnode & Hname & _).
    repeat split. eexists. repeat split. right. repeat split; [exact Hk|].
    exists f. auto.
  - rewrite setupItem_screen by exact Hk. intros [= <- <-].
    repeat split. eexists. repeat split. left. auto.
  - rewrite setupItem_invalid by assumption. discriminate.
Qed.

Lemma setupRange_screens (items : list LogConfig.Item) :
  Forall (fun item => Strings.ToLower (LogConfig.LogType item) = "screen") items ->
  forall (l : Log) (w : World),
    setupRange l items w
    = (w, {| loggers := loggers l ++ (screenLogger <$> items) |}, None).
Proof.
  induction 1 as [|item items Hk _ IH]; intros l w.
  - simpl. rewrite app_nil_r. now destruct l.
  - simpl. rewrite setupItem_screen by exact Hk. rewrite IH. simpl.
    now rewrite <- app_assoc.
Qed.

(** X9. A configuration of screen entries only (at least one) is set up
    without touching the world and cannot fail: [SetupLoggers] returns nil,
    the world is as before, and the dispatcher gains the entries' screen
    sinks in order. *)
Theorem SetupLoggers_screens_only
    (l : Log) (items : list LogConfig.Item) (w : World) :
  items <> [] ->
  Forall (fun item => Strings.ToLower (LogConfig.LogType item) = "screen") items ->
  SetupLoggers l {| LogConfig.Loggers := Some items |} w
  = (w, {| loggers := (loggers l ++ (screenLogger <$> items))%list |}, None).
Proof.
  intros Hne Hall. rewrite SetupLoggers_cons by exact Hne.
  now apply setupRange_screens.
Qed.





Lemma builtFrom_severity (lg : Logger) (item : LogConfig.Item) :
  builtFrom lg item -> severity lg = LogConfig.Severity item.
Proof. intros [[_ ->]|[_ [f ->]]]; reflexivity. Qed.

Lemma Forall2_built_filter (sev : LogSeverity) (built : list Logger)
    (items : list LogConfig.Item) :
  Forall2 builtFrom built items ->
  Forall2 builtFrom (filter (fun lg => sev <= severity lg) built)
    (filter (fun item => sev <= LogConfig.Severity item) items).
Proof.
  induction 1 as [|lg item built items Hb _ IH]; [constructor|].
  rewrite !filter_cons. rewrite (builtFrom_severity _ _ Hb).
  destruct (decide (sev <= LogConfig.Severity item)); [now constructor | exact IH].
Qed.

(** X11. Setup then emit: after [SetupLoggers] returned nil on an empty
    dispatcher, an emit at a severity with a label hands the line to the
    sinks built from exactly the entries whose severity is at least the
    message's, in the order of the configuration, and to no other. *)
Theorem setup_then_emit
    (cfg : LogConfig.t) (w w1 : World) (l1 : Log) (sev : LogSeverity)
    (label msg : string) :
  SetupLoggers {| loggers := [] |} cfg w = (w1, l1, None) ->
  getLogTypeString sev = Ok label ->
  exists (items : list LogConfig.Item) (reached : list Logger),
    LogConfig.Loggers cfg = Some items
    /\ Forall2 builtFrom reached
         (filter (fun item => sev <= LogConfig.Severity item) items)
    /\ writeMessage l1 sev msg w1
       = (add_output (writes (label +:+ " " +:+ msg) reached) w1, None).
Proof.
  intros Hsetup Hlabel.
  assert (Hraw : allRaw l1).
  { eapply SetupLoggers_allRaw; [|exact Hsetup]. constructor. }
  unfold SetupLoggers in Hsetup.
  destruct (LogConfig.Loggers cfg) as [items|]; [|discriminate].
  destruct (length items =? 0)%nat; [discriminate|].
  apply setupRange_built in Hsetup as (built & Hl & Hb). simpl in Hl.
  exists items, (filter (fun lg => sev <= severity lg) built).
  split; [reflexivity|]. split; [now apply Forall2_built_filter|].
  rewrite <- Hl. now apply writeMessage_writes.
Qed.

End SetupMore.

(** ** The file steps: further properties *)

Section FileMore.
Context `{GoLib}.
Import Sys Logging.

(** X12. When the log directory does not exist and [os.MkdirAll] fails,
    the step of a file entry fails with "failed to create logging
    directory: " followed by the error's text; the calls of the step are
    [os.Stat] and [os.MkdirAll] (with mode [ModeDir|ModePerm]) on the
    directory, and the log file is never looked at: no call is made on its
    path, no descriptor is opened and the clock is not read. *)
Theorem directory_creation_failure
    (item : LogConfig.Item) (w w1 w2 : World) (e1 err : error) :
  Strings.ToLower (LogConfig.LogType item) = "file" ->
  os_Stat (path_Dir (LogConfig.Path item)) w = (w1, Err e1) ->
  os_IsNotExist e1 = true ->
  os_MkdirAll (path_Dir (LogConfig.Path item)) (Z.lor os_ModeDir os_ModePerm) w1
  = (w2, Some err) ->
  setupItem item w
  = (w2, Err (errorString ("failed to create logging directory: " +:+ Error_ err)))
  /\ calls w2
     = (calls w ++ [Stat (path_Dir (LogConfig.Path item));
                    MkdirAll (path_Dir (LogConfig.Path item)) 2147484159])%list
  /\ next_fd w2 = next_fd w
  /\ ticks w2 = ticks w.
Proof.
  intros Hk Hs Hne Hm. split.
  - rewrite setupItem_file by exact Hk. unfold createLogDir.
    now rewrite Hs, Hne, Hm.
  - apply os_Stat_world in Hs as ->. unfold os_MkdirAll in Hm.
    destruct (injected _ _); [|destruct (nodes _ !! _) as [[c|]|]];
      inversion Hm; subst; simpl; now rewrite <- app_assoc.
Qed.


(** X14. Without the rotate flag [createLogFile] never renames and never
    reads the clock, in any world: its calls are [os.Stat] on the path,
    followed or not by [os.Create] on the path, and nothing else. *)
Theorem no_rotation_no_rename (path : string) (w : World) :
  ticks (createLogFile path false w).1 = ticks w
  /\ (calls (createLogFile path false w).1 = (calls w ++ [Stat path])%list
      \/ calls (createLogFile path false w).1
         = (calls w ++ [Stat path; Create path])%list).
Proof.
  unfold createLogFile.
  destruct (os_Stat path w) as [w1 r] eqn:Hs. apply os_Stat_world in Hs as ->.
  assert (Hc : ticks (os_Create path (record_call (Stat path) w)).1 = ticks w
               /\ calls (os_Create path (record_call (Stat path) w)).1
                  = (calls w ++ [Stat path; Create path])%list).
  { unfold os_Create. destruct (injected _ _);
      [|destruct (nodes _ !! _) as [[c|]|]]; simpl; now rewrite <- app_assoc. }
  destruct r as [n|err]; [tauto|].
  destruct (os_IsNotExist err); [tauto|]. simpl. auto.
Qed.

(** X15. When [os.Stat] says the file does not exist the rotate flag makes
    no difference: with or without it [createLogFile] goes straight to
    [os.Create], without renaming and without reading the clock. *)
Theorem rotate_flag_ignored_when_missing
    (path : string) (w w1 : World) (err : error) :
  os_Stat path w = (w1, Err err) ->
  os_IsNotExist err = true ->
  createLogFile path true w = os_Create path w1
  /\ createLogFile path false w = os_Create path w1
  /\ ticks (createLogFile path true w).1 = ticks w.
Proof.
  intros Hs Hne.
  assert (Hboth : forall rotate, createLogFile path rotate w = os_Create path w1).
  { intros rotate. unfold createLogFile. now rewrite Hs, Hne. }
  split; [apply Hboth|]. split; [apply Hboth|].
  rewrite Hboth. apply os_Stat_world in Hs as ->.
  unfold os_Create. destruct (injected _ _);
    [|destruct (nodes _ !! _) as [[c|]|]]; reflexivity.
Qed.

(** X16. [createLogFile] does not look at what [os.Stat] found: with the
    rotate flag, a directory at the path is rotated like a file.  When no
    call is made to fail and the new name is free, the calls are [Stat],
    [Rename] to the new name and [Create]; afterwards the new name is a
    directory, the path holds an empty file, and the handle returned is
    open on the path. *)
Theorem rotation_moves_a_directory (path : string) (w : World) :
  nodes w !! path = Some NDir ->
  nodes w !! backupName path w = None ->
  injected (Stat path) w = None ->
  fault w (S (length (calls w))) (Rename path (backupName path w)) = None ->
  fault w (S (S (length (calls w)))) (Create path) = None ->
  exists w' : World,
    createLogFile path true w = (w', Ok {| fd := next_fd w; name := path |})
    /\ calls w'
       = (calls w ++ [Stat path; Rename path (backupName path w); Create path])%list
    /\ nodes w' !! backupName path w = Some NDir
    /\ nodes w' !! path = Some (NFile "").
Proof.
  intros Hn Hb Hi Hfr Hfc.
  pose proof (backupName_neq path w) as Hneq.
  unfold createLogFile. rewrite (os_Stat_found path NDir) by assumption.
  unfold time_Now. cbn -[os_Rename os_Create rotatedName backupName].
  rewrite rotatedName_eq. fold (backupName path w).
  unfold os_Rename, injected. simpl.
  rewrite length_app, Nat.add_1_r, Hfr, Hn, Hb.
  unfold os_Create, injected. simpl. rewrite !length_app. simpl.
  replace (length (calls w) + 1 + 1)%nat with (S (S (length (calls w)))) by lia.
  rewrite Hfc, lookup_insert_ne, lookup_delete_eq by exact Hneq.
  eexists. split; [reflexivity|]. simpl.
  split; [now rewrite <- !app_assoc|].
  split; [now rewrite lookup_insert_ne, lookup_insert_eq by auto|].
  apply lookup_insert_eq.
Qed.

End FileMore.


(** ** Labels, sequences and the directory step *)

Section More.
Context `{GoLib}.
Import Sys Logging.

(** X17. Whatever severity has a label, the label is seven characters wide
    and free of percent signs, and it is the label of the severity rounded
    down to a multiple of ten: 15 is labelled like 10, 69 like 60. *)
Theorem label_of_decade (sev : LogSeverity) (label : string) :
  0 <= sev < 65536 ->
  getLogTypeString sev = Ok label ->
  String.length label = 7%nat
  /\ noPercent label = true
  /\ getLogTypeString (10 * (sev / 10)) = Ok label.
Proof.
  intros Hrange Hlabel.
  assert (Hdec : getLogTypeString (10 * (sev / 10)) = getLogTypeString sev).
  { unfold getLogTypeString.
    replace (10 * (sev / 10) / 10) with (sev / 10); [reflexivity|].
    rewrite Z.mul_comm, Z.div_mul; lia. }
  rewrite Hdec. split; [|split; [eapply label_noPercent, Hlabel | exact Hlabel]].
  unfold getLogTypeString in Hlabel.
  destruct (Z.to_nat (uint16 (sev / 10 - 1))) as [|[|[|[|[|[|n]]]]]];
    simpl in Hlabel; inversion Hlabel; reflexivity.
Qed.

(** X18. Emits add up in call order and leave the dispatcher's choice of
    sinks alone: after an emit at [s1] and then one at [s2], the output is
    the former output, then the first line for the sinks with threshold at
    least [s1], then the second line for those at least [s2]. *)
Theorem emits_in_sequence
    (l : Log) (s1 s2 : LogSeverity) (label1 label2 msg1 msg2 : string) (w : World) :
  allRaw l ->
  getLogTypeString s1 = Ok label1 ->
  getLogTypeString s2 = Ok label2 ->
  writeMessage l s2 msg2 (writeMessage l s1 msg1 w).1
  = (add_output
       (writes (label1 +:+ " " +:+ msg1)
          (filter (fun lg => s1 <= severity lg) (loggers l))
        ++ writes (label2 +:+ " " +:+ msg2)
             (filter (fun lg => s2 <= severity lg) (loggers l)))%list w,
     None).
Proof.
  intros Hraw H1 H2.
  rewrite (writeMessage_writes l s1 label1 msg1 w Hraw H1). simpl.
  rewrite (writeMessage_writes l s2 label2 msg2 _ Hraw H2).
  now rewrite add_output_app.
Qed.

Lemma filter_all (sev : LogSeverity) (lgs : list Logger) :
  Forall (fun lg => sev <= severity lg) lgs ->
  filter (fun lg => sev <= severity lg) lgs = lgs.
Proof.
  induction 1 as [|lg lgs Hlg _ IH]; [reflexivity|].
  now rewrite filter_cons_True, IH.
Qed.

(** X19. Sinks at the threshold Verbose or above get everything: when
    every threshold is at least 60, an emit at any of the six severities
    hands its line to every sink of the dispatcher, in order. *)
Theorem verbose_sinks_get_all
    (l : Log) (sev : LogSeverity) (name msg : string) (w : World) :
  allRaw l ->
  Forall (fun lg => 60 <= severity lg) (loggers l) ->
  (sev, name) ∈ severityNames ->
  writeMessage l sev msg w
  = (add_output (writes (padRight 7 name +:+ " " +:+ msg) (loggers l)) w, None).
Proof.
  intros Hraw Hall Hin.
  assert (Hlabel : getLogTypeString sev = Ok (padRight 7 name) /\ sev <= 60).
  { unfold severityNames in Hin. rewrite !elem_of_cons, elem_of_nil in Hin.
    destruct_or!; simplify_eq; split; first [reflexivity | vm_compute; discriminate]. }
  destruct Hlabel as [Hlabel Hle].
  rewrite (writeMessage_writes l sev _ msg w Hraw Hlabel).
  rewrite filter_all; [reflexivity|].
  eapply Forall_impl; [exact Hall|]. simpl. intros lg Hlg. lia.
Qed.

(** X20. The two ways [createLogDir] runs.  Either it only calls
    [os.Stat]: then it returns nil and the file system is as before, also
    when the path holds a regular file or [os.Stat] failed for a reason
    other than "does not exist".  Or it calls [os.Stat] and [os.MkdirAll]:
    then a nil return means the path holds a directory, and what it
    returns, nil or an error, is what [os.MkdirAll] returned. *)
Theorem createLogDir_outcomes (path : string) (w : World) :
  (calls (createLogDir path w).1 = (calls w ++ [Stat path])%list
   /\ (createLogDir path w).2 = None
   /\ nodes (createLogDir path w).1 = nodes w)
  \/ (calls (createLogDir path w).1
      = (calls w ++ [Stat path; MkdirAll path 2147484159])%list
      /\ ((createLogDir path w).2 = None ->
          nodes (createLogDir path w).1 !! path = Some NDir)
      /\ createLogDir path w
         = os_MkdirAll path 2147484159 (record_call (Stat path) w)).
Proof.
  unfold createLogDir.
  destruct (os_Stat path w) as [w1 r] eqn:Hs. apply os_Stat_world in Hs as ->.
  destruct r as [n|err]; [left; auto|].
  destruct (os_IsNotExist err); [|left; auto].
  right. change (Z.lor os_ModeDir os_ModePerm) with 2147484159.
  unfold os_MkdirAll. destruct (injected _ _) as [e|].
  - simpl. rewrite <- app_assoc. split; [reflexivity|].
    split; [intros [=] | reflexivity].
  - change (nodes (record_call (Stat path) w)) with (nodes w).
    destruct (nodes w !! path) as [[c|]|] eqn:Hn; simpl; rewrite <- app_assoc;
      (split; [reflexivity|]).
    + split; [intros [=] | reflexivity].
    + split; [intros _; exact Hn | reflexivity].
    + split; [intros _; apply lookup_insert_eq | reflexivity].
Qed.

End More.

(** ** Instances of the theorems, on the worlds of [Demo] *)

Section Instances.
#[local] Existing Instance Demo.lib.

Lemma emit_filters_by_threshold_witness :
  Logging.writeMessage Demo.twoSinks Logging.Warning "disk" Demo.world0
  = (Sys.add_output
       (writes ("WARNING" +:+ " " +:+ "disk")
          (filter (fun lg => Logging.Warning <= Logging.severity lg)
             (Logging.loggers Demo.twoSinks))) Demo.world0, None)
  /\ (forall args,
        Logging.writeMessagef Demo.twoSinks Logging.Warning "disk" args
          Demo.world0
        = (Sys.add_output
             (writes ("WARNING" +:+ " " +:+ Fmt.Sprintf "disk" args)
                (filter (fun lg => Logging.Warning <= Logging.severity lg)
                   (Logging.loggers Demo.twoSinks))) Demo.world0, None))
  /\ (Forall (fun lg => Logging.severity lg < Logging.Warning)
        (Logging.loggers Demo.twoSinks) ->
      Logging.writeMessage Demo.twoSinks Logging.Warning "disk" Demo.world0
      = (Demo.world0, None)
      /\ forall args,
           Logging.writeMessagef Demo.twoSinks Logging.Warning "disk" args
             Demo.world0 = (Demo.world0, None)).
Proof.
  apply (emit_filters_by_threshold (H := Demo.lib) Demo.twoSinks Logging.Warning
           "WARNING" "disk" Demo.world0).
  - repeat constructor; eexists; reflexivity.
  - reflexivity.
Defined.

Lemma line_is_padded_name_and_message_witness :
  Logging.getLogTypeString Logging.Information = Ok (padRight 7 "INFO")
  /\ String.length (padRight 7 "INFO") = 7%nat
  /\ forall (l : Logging.Log) (msg : string) (w : Sys.World),
       allRaw l ->
       Logging.writeMessage l Logging.Information msg w
       = (Sys.add_output
            (writes (padRight 7 "INFO" +:+ " " +:+ msg)
               (filter (fun lg => Logging.Information <= Logging.severity lg)
                  (Logging.loggers l))) w, None).
Proof.
  apply (line_is_padded_name_and_message (H := Demo.lib) Logging.Information "INFO").
  unfold severityNames. rewrite !elem_of_cons. vm_compute. tauto.
Defined.

(** C9, against the claim as written: 15 is none of the six constants, and
    its lookup is in bounds. *)
Lemma label_lookup_of_15_in_bounds :
  (15 ∉ [Logging.Fatal; Logging.Error; Logging.Warning; Logging.Information;
         Logging.Debug; Logging.Verbose])
  /\ Logging.getLogTypeString 15 = Ok "FATAL  ".
Proof.
  split; [|reflexivity].
  rewrite !not_elem_of_cons. repeat split; try discriminate. apply not_elem_of_nil.
Qed.

Lemma label_lookup_in_bounds_iff_witness :
  ((exists label, Logging.getLogTypeString 65 = Ok label) <-> 10 <= 65 <= 69)
  /\ (65 < 10 \/ 70 <= 65 ->
      Logging.getLogTypeString 65
      = Err (Sys.IndexOutOfRange (Logging.uint16 (65 / 10 - 1)) 6))
  /\ length Logging.logStrings = 6%nat
  /\ Forall (fun s => exists label, Logging.getLogTypeString s = Ok label)
       [Logging.Fatal; Logging.Error; Logging.Warning; Logging.Information;
        Logging.Debug; Logging.Verbose]
  /\ forall (l : Logging.Log) (msg : string) (args : list (Fmt.GoValue))
       (err : option Sys.error) (w : Sys.World),
       noIndexPanic (Logging.Log_Fatal l msg w)
       /\ noIndexPanic (Logging.Log_Fatalf l msg args w)
       /\ noIndexPanic (Logging.Log_Error l msg w)
       /\ noIndexPanic (Logging.Log_Errorf l msg args w)
       /\ noIndexPanic (Logging.Log_Errore l err w)
       /\ noIndexPanic (Logging.Log_Warning l msg w)
       /\ noIndexPanic (Logging.Log_Warningf l msg args w)
       /\ noIndexPanic (Logging.Log_Info l msg w)
       /\ noIndexPanic (Logging.Log_Infof l msg args w)
       /\ noIndexPanic (Logging.Log_Debug l msg w)
       /\ noIndexPanic (Logging.Log_Debugf l msg args w)
       /\ noIndexPanic (Logging.Log_Verbose l msg w)
       /\ noIndexPanic (Logging.Log_Verbosef l msg args w).
Proof.
  apply (label_lookup_in_bounds_iff (H := Demo.lib) 65). lia.
Defined.

Lemma createLogDir_ignores_other_stat_errors_witness :
  Logging.createLogDir "/var/log" Demo.world_noaccess
  = (Sys.record_call (Sys.Stat "/var/log") Demo.world_noaccess, None)
  /\ Sys.calls (Sys.record_call (Sys.Stat "/var/log") Demo.world_noaccess)
     = (Sys.calls Demo.world_noaccess ++ [Sys.Stat "/var/log"])%list
  /\ Sys.nodes (Sys.record_call (Sys.Stat "/var/log") Demo.world_noaccess)
     = Sys.nodes Demo.world_noaccess
  /\ forall item : LogConfig.Item,
       Strings.ToLower (LogConfig.LogType item) = "file" ->
       path_Dir (LogConfig.Path item) = "/var/log" ->
       Logging.setupItem item Demo.world_noaccess
       = openLogFile item (Sys.record_call (Sys.Stat "/var/log") Demo.world_noaccess).
Proof.
  apply (createLogDir_ignores_other_stat_errors (H := Demo.lib) "/var/log"
           Demo.world_noaccess _ (Sys.PathError "stat" "/var/log" Sys.EACCES));
    reflexivity.
Defined.

(** The step of a file entry under [/var/log] when [os.Stat] is denied:
    no directory is made, and the step fails in [createLogFile]. *)
Example run_setup_noaccess :
  let r := Logging.setupItem (Demo.fileItem 30 false "/var/log/app.log")
             Demo.world_noaccess in
  Sys.calls r.1 = [Sys.Stat "/var/log"; Sys.Stat "/var/log/app.log"]
  /\ r.2 = Err (Sys.errorString
       "failed to create log file: stat /var/log/app.log: permission denied").
Proof. vm_compute. split; reflexivity. Qed.

Lemma kind_resolution_witness :
  Logging.SetupLoggers Demo.emptyLog
    {| LogConfig.Loggers :=
         Some ([Demo.screenItem 60 "p"] ++ Demo.socketItem :: [Demo.screenItem 10 "q"])%list |}
    Demo.world0
  = (Demo.world0,
     {| Logging.loggers := [screenLogger (Demo.screenItem 60 "p")] |},
     Some (Sys.errorString ("socket" +:+ " is invalid log type"))).
Proof.
  apply (proj1 (kind_resolution (H := Demo.lib) Demo.socketItem)).
  - vm_compute. discriminate.
  - vm_compute. discriminate.
  - reflexivity.
Defined.


(** What that run leaves: the two sinks of the earlier entries, the file of
    the first, and the calls up to the failed rename. *)
Example run_setup_partial :
  length (Logging.loggers Demo.afterPre.1.2) = 2%nat
  /\ Sys.nodes Demo.afterFail.1 !! "/var/log/other.log" = Some (Sys.NFile "")
  /\ Sys.calls Demo.afterFail.1
     = [Sys.Stat "/var/log"; Sys.Stat "/var/log/other.log";
        Sys.Create "/var/log/other.log";
        Sys.Stat "/var/log"; Sys.Stat "/var/log/app.log";
        Sys.Rename "/var/log/app.log" "/var/log/app.log.20240309070559"].
Proof. vm_compute. repeat split; reflexivity. Qed.

Lemma createLogFile_recreates_witness :
  Logging.createLogFile Demo.logPath false Demo.world0
  = ({| Sys.nodes := <[Demo.logPath := Sys.NFile ""]> (Sys.nodes Demo.world0);
        Sys.fault := Sys.fault Demo.world0; Sys.clock := Sys.clock Demo.world0;
        Sys.ticks := Sys.ticks Demo.world0; Sys.next_fd := S (Sys.next_fd Demo.world0);
        Sys.calls := (Sys.calls Demo.world0
                      ++ [Sys.Stat Demo.logPath; Sys.Create Demo.logPath])%list;
        Sys.output := Sys.output Demo.world0 |},
     Ok {| Sys.fd := Sys.next_fd Demo.world0; Sys.name := Demo.logPath |}).
Proof.
  apply (proj2 (proj2 (proj2
           (createLogFile_recreates (H := Demo.lib) Demo.logPath false Demo.world0)))
           "old lines"); reflexivity.
Defined.

Lemma createLogFile_rotates_witness :
  Logging.rotatedName Demo.logPath (Sys.clock Demo.world0 (Sys.ticks Demo.world0))
  = backupName Demo.logPath Demo.world0
  /\ (Time.wellFormed (Sys.clock Demo.world0 (Sys.ticks Demo.world0)) ->
      exists stamp,
        backupName Demo.logPath Demo.world0 = Demo.logPath +:+ "." +:+ stamp
        /\ String.length stamp = 14%nat /\ Time.allDigits stamp = true)
  /\ (forall (w3 : Sys.World) (err : Sys.error),
        Sys.os_Rename Demo.logPath (backupName Demo.logPath Demo.world0)
          (Sys.time_Now (Sys.record_call (Sys.Stat Demo.logPath) Demo.world0)).1
        = (w3, Some err) ->
        Logging.createLogFile Demo.logPath true Demo.world0 = (w3, Err err)
        /\ Sys.calls w3
           = (Sys.calls Demo.world0
              ++ [Sys.Stat Demo.logPath;
                  Sys.Rename Demo.logPath (backupName Demo.logPath Demo.world0)])%list
        /\ Sys.nodes w3 = Sys.nodes Demo.world0
        /\ forall (item : LogConfig.Item) (w0 : Sys.World),
             Strings.ToLower (LogConfig.LogType item) = "file" ->
             LogConfig.Path item = Demo.logPath ->
             LogConfig.Rotate item = true ->
             Logging.createLogDir (path_Dir Demo.logPath) w0 = (Demo.world0, None) ->
             Logging.setupItem item w0
             = (w3, Err (Sys.errorString
                           ("failed to create log file: " +:+ Sys.Error_ err))))
  /\ (Sys.fault Demo.world0 (S (length (Sys.calls Demo.world0)))
        (Sys.Rename Demo.logPath (backupName Demo.logPath Demo.world0)) = None ->
      Sys.fault Demo.world0 (S (S (length (Sys.calls Demo.world0))))
        (Sys.Create Demo.logPath) = None ->
      Sys.nodes Demo.world0 !! backupName Demo.logPath Demo.world0 <> Some Sys.NDir ->
      exists w' : Sys.World,
        Logging.createLogFile Demo.logPath true Demo.world0
        = (w', Ok {| Sys.fd := Sys.next_fd Demo.world0; Sys.name := Demo.logPath |})
        /\ Sys.nodes w'
           = <[Demo.logPath := Sys.NFile ""]>
               (<[backupName Demo.logPath Demo.world0 := Sys.NFile "old lines"]>
                  (delete Demo.logPath (Sys.nodes Demo.world0)))
        /\ Sys.calls w'
           = (Sys.calls Demo.world0
              ++ [Sys.Stat Demo.logPath;
                  Sys.Rename Demo.logPath (backupName Demo.logPath Demo.world0);
                  Sys.Create Demo.logPath])%list
        /\ Sys.nodes w' !! Demo.logPath = Some (Sys.NFile "")
        /\ Sys.nodes w' !! backupName Demo.logPath Demo.world0
           = Some (Sys.NFile "old lines")
        /\ forall q, q <> Demo.logPath -> q <> backupName Demo.logPath Demo.world0 ->
             Sys.nodes w' !! q = Sys.nodes Demo.world0 !! q).
Proof.
  apply (createLogFile_rotates (H := Demo.lib) Demo.logPath "old lines" Demo.world0);
    reflexivity.
Defined.

(** Setup with rotation in [world0]: the calls made, the backup and the
    fresh file. *)
Example run_setup_rotate :
  let r := Logging.SetupLoggers Demo.emptyLog
             {| LogConfig.Loggers := Some [Demo.fileItem 30 true Demo.logPath] |}
             Demo.world0 in
  r.2 = None
  /\ Sys.calls r.1.1
     = [Sys.Stat "/var/log"; Sys.Stat "/var/log/app.log";
        Sys.Rename "/var/log/app.log" "/var/log/app.log.20240309070559";
        Sys.Create "/var/log/app.log"]
  /\ Sys.nodes r.1.1 !! "/var/log/app.log" = Some (Sys.NFile "")
  /\ Sys.nodes r.1.1 !! "/var/log/app.log.20240309070559"
     = Some (Sys.NFile "old lines")
  /\ length (Logging.loggers r.1.2) = 1%nat.
Proof. vm_compute. repeat split; reflexivity. Qed.

(** The same when [os.Rename] is denied: setup fails, the file is untouched
    and [os.Create] is not called. *)
Example run_setup_rename_denied :
  let r := Logging.SetupLoggers Demo.emptyLog
             {| LogConfig.Loggers := Some [Demo.fileItem 30 true Demo.logPath] |}
             Demo.world_norename in
  r.2 = Some (Sys.errorString
    "failed to create log file: rename /var/log/app.log /var/log/app.log.20240309070559: permission denied")
  /\ Sys.calls r.1.1
     = [Sys.Stat "/var/log"; Sys.Stat "/var/log/app.log";
        Sys.Rename "/var/log/app.log" "/var/log/app.log.20240309070559"]
  /\ Sys.nodes r.1.1 !! "/var/log/app.log" = Some (Sys.NFile "old lines")
  /\ Logging.loggers r.1.2 = [].
Proof. vm_compute. repeat split; reflexivity. Qed.

(** Without rotation the old lines are lost and no other name appears. *)
Example run_setup_truncate :
  let r := Logging.SetupLoggers Demo.emptyLog
             {| LogConfig.Loggers := Some [Demo.fileItem 30 false Demo.logPath] |}
             Demo.world0 in
  r.2 = None
  /\ Sys.calls r.1.1 = [Sys.Stat "/var/log"; Sys.Stat "/var/log/app.log";
                        Sys.Create "/var/log/app.log"]
  /\ Sys.nodes r.1.1 = <["/var/log/app.log" := Sys.NFile ""]> (Sys.nodes Demo.world0).
Proof. vm_compute. repeat split; reflexivity. Qed.

Lemma emit_unlabelled_severity_witness :
  Logging.getLogTypeString 0 = Err (Sys.IndexOutOfRange 65535 6)
  /\ Logging.writeMessage Demo.twoSinks 0 "lost" Demo.world0
     = (Demo.world0,
        if decide (Exists (fun lg => 0 <= Logging.severity lg)
                     (Logging.loggers Demo.twoSinks))
        then Some (Sys.IndexOutOfRange 65535 6) else None)
  /\ Logging.writeMessagef Demo.twoSinks 0 "lost" [VInt 1] Demo.world0
     = (Demo.world0,
        if decide (Exists (fun lg => 0 <= Logging.severity lg)
                     (Logging.loggers Demo.twoSinks))
        then Some (Sys.IndexOutOfRange 65535 6) else None).
Proof.
  split; [reflexivity|].
  apply (emit_unlabelled_severity (H := Demo.lib) Demo.twoSinks 0
           (Sys.IndexOutOfRange 65535 6) "lost" [VInt 1] Demo.world0).
  reflexivity.
Defined.

(** With the two sinks of [Demo] the emit at severity 0 panics. *)
Example run_unlabelled :
  Logging.writeMessage (H := Demo.lib) Demo.twoSinks 0 "lost" Demo.world0
  = (Demo.world0, Some (Sys.IndexOutOfRange 65535 6))
  /\ Logging.writeMessage (H := Demo.lib) Demo.twoSinks 70 "lost" Demo.world0
     = (Demo.world0, None).
Proof. split; vm_compute; reflexivity. Qed.

Lemma more_severe_reaches_more_witness :
  exists e e',
    Logging.writeMessage Demo.twoSinks Logging.Warning "disk" Demo.world0
    = (Sys.add_output e Demo.world0, None)
    /\ Logging.writeMessage Demo.twoSinks Logging.Error "net" Demo.world0
       = (Sys.add_output e' Demo.world0, None)
    /\ sublist e.*1 e'.*1.
Proof.
  apply (more_severe_reaches_more (H := Demo.lib) Demo.twoSinks Logging.Warning
           Logging.Error "WARNING" "ERROR  " "disk" "net" Demo.world0).
  - repeat constructor; eexists; reflexivity.
  - reflexivity.
  - reflexivity.
  - vm_compute. discriminate.
Defined.

Lemma low_thresholds_are_mute_witness :
  Logging.Log_Fatal Demo.zeroSink "boom" Demo.world0 = (Demo.world0, None)
  /\ Logging.Log_Errore Demo.zeroSink (Some (Sys.errorString "e")) Demo.world0
     = (Demo.world0, None)
  /\ Logging.Log_Errore Demo.zeroSink None Demo.world0
     = (Demo.world0, Some Sys.NilDereference).
Proof.
  destruct (low_thresholds_are_mute (H := Demo.lib) Demo.zeroSink "boom" [VInt 1]
              (Sys.errorString "e") Demo.world0) as (H1 & _ & _ & _ & H5 & H6 & _).
  { repeat constructor. }
  split; [exact H1 | split; [exact H5 | exact H6]].
Defined.

Lemma public_methods_lines_witness :
  Logging.Log_Errore Demo.twoSinks (Some (Sys.PathError "open" "/x" Sys.ENOSPC))
    Demo.world0
  = (Sys.add_output
       [(Sys.log_New Sys.Stdout "err:" 7, "ERROR   open /x: no space left on device");
        (Sys.log_New Sys.Stdout "app:" 7, "ERROR   open /x: no space left on device")]
       Demo.world0, None)
  /\ Logging.Log_Errore Demo.twoSinks None Demo.world0
     = (Demo.world0, Some Sys.NilDereference).
Proof.
  destruct (public_methods_lines (H := Demo.lib) Demo.twoSinks "m" []
              (Sys.PathError "open" "/x" Sys.ENOSPC) Demo.world0)
    as (_ & _ & He & Hn & _).
  { repeat constructor; eexists; reflexivity. }
  split; [rewrite He; reflexivity | exact Hn].
Defined.

Lemma formatted_emit_without_operands_witness :
  Logging.writeMessagef Demo.twoSinks Logging.Warning "disk" [] Demo.world0
  = Logging.writeMessage Demo.twoSinks Logging.Warning "disk" Demo.world0.
Proof.
  apply (formatted_emit_without_operands (H := Demo.lib) Demo.twoSinks
           Logging.Warning "disk" Demo.world0).
  reflexivity.
Defined.

Lemma setupItem_sink_witness :
  Logging.severity (screenLogger (Demo.screenItem 60 "p")) = 60
  /\ Logging.prefix (screenLogger (Demo.screenItem 60 "p")) = ""
  /\ exists r : Sys.log_Logger,
       Logging.rawLogger (screenLogger (Demo.screenItem 60 "p")) = Some r
       /\ Sys.log_prefix r = "p"
       /\ Sys.log_flag r = 7
       /\ ((Strings.ToLower "Screen" = "screen"
            /\ Logging.logType (screenLogger (Demo.screenItem 60 "p")) = 2
            /\ Sys.log_out r = Sys.Stdout /\ Demo.world0 = Demo.world0)
           \/ (Strings.ToLower "Screen" = "file"
               /\ Logging.logType (screenLogger (Demo.screenItem 60 "p")) = 1
               /\ exists f : Sys.File,
                    Sys.log_out r = Sys.FileWriter f
                    /\ Sys.name f = ""
                    /\ Sys.nodes Demo.world0 !! "" = Some (Sys.NFile ""))).
Proof.
  apply (setupItem_sink (H := Demo.lib) (Demo.screenItem 60 "p") Demo.world0
           Demo.world0 (screenLogger (Demo.screenItem 60 "p"))).
  reflexivity.
Defined.

Lemma SetupLoggers_screens_only_witness :
  Logging.SetupLoggers Demo.twoSinks
    {| LogConfig.Loggers := Some [Demo.screenItem 20 "a"; Demo.screenItem 60 "b"] |}
    Demo.world0
  = (Demo.world0,
     {| Logging.loggers :=
          (Logging.loggers Demo.twoSinks
           ++ (screenLogger <$> [Demo.screenItem 20 "a"; Demo.screenItem 60 "b"]))%list |},
     None).
Proof.
  apply (SetupLoggers_screens_only (H := Demo.lib) Demo.twoSinks
           [Demo.screenItem 20 "a"; Demo.screenItem 60 "b"] Demo.world0).
  - discriminate.
  - repeat constructor.
Defined.

Lemma setup_then_emit_witness :
  exists (items : list LogConfig.Item) (reached : list Logging.Logger),
    LogConfig.Loggers {| LogConfig.Loggers := Some Demo.preItems |} = Some items
    /\ Forall2 builtFrom reached
         (filter (fun item => Logging.Debug <= LogConfig.Severity item) items)
    /\ Logging.writeMessage Demo.afterPre.1.2 Logging.Debug "tick" Demo.afterPre.1.1
       = (Sys.add_output (writes ("DEBUG  " +:+ " " +:+ "tick") reached)
            Demo.afterPre.1.1, None).
Proof.
  apply (setup_then_emit (H := Demo.lib) {| LogConfig.Loggers := Some Demo.preItems |}
           Demo.world_norename Demo.afterPre.1.1 Demo.afterPre.1.2 Logging.Debug
           "DEBUG  " "tick").
  - vm_compute. reflexivity.
  - reflexivity.
Defined.

Lemma directory_creation_failure_witness :
  Logging.setupItem (Demo.fileItem 30 false "/var/log/app/app.log") Demo.world_nomkdir
  = ((Sys.os_MkdirAll "/var/log/app" 2147484159
        (Sys.os_Stat "/var/log/app" Demo.world_nomkdir).1).1,
     Err (Sys.errorString
            ("failed to create logging directory: "
             +:+ Sys.Error_ (Sys.PathError "mkdir" "/var/log/app" Sys.EACCES))))
  /\ Sys.calls (Sys.os_MkdirAll "/var/log/app" 2147484159
                  (Sys.os_Stat "/var/log/app" Demo.world_nomkdir).1).1
     = (Sys.calls Demo.world_nomkdir
        ++ [Sys.Stat "/var/log/app"; Sys.MkdirAll "/var/log/app" 2147484159])%list
  /\ Sys.next_fd (Sys.os_MkdirAll "/var/log/app" 2147484159
                    (Sys.os_Stat "/var/log/app" Demo.world_nomkdir).1).1
     = Sys.next_fd Demo.world_nomkdir
  /\ Sys.ticks (Sys.os_MkdirAll "/var/log/app" 2147484159
                  (Sys.os_Stat "/var/log/app" Demo.world_nomkdir).1).1
     = Sys.ticks Demo.world_nomkdir.
Proof.
  apply (directory_creation_failure (H := Demo.lib)
           (Demo.fileItem 30 false "/var/log/app/app.log") Demo.world_nomkdir
           (Sys.os_Stat "/var/log/app" Demo.world_nomkdir).1 _
           (Sys.PathError "stat" "/var/log/app" Sys.ENOENT)
           (Sys.PathError "mkdir" "/var/log/app" Sys.EACCES)); reflexivity.
Defined.


Lemma rotate_flag_ignored_when_missing_witness :
  Logging.createLogFile "/var/log/new.log" true Demo.world0
  = Sys.os_Create "/var/log/new.log"
      (Sys.record_call (Sys.Stat "/var/log/new.log") Demo.world0)
  /\ Logging.createLogFile "/var/log/new.log" false Demo.world0
     = Sys.os_Create "/var/log/new.log"
         (Sys.record_call (Sys.Stat "/var/log/new.log") Demo.world0)
  /\ Sys.ticks (Logging.createLogFile "/var/log/new.log" true Demo.world0).1
     = Sys.ticks Demo.world0.
Proof.
  apply (rotate_flag_ignored_when_missing (H := Demo.lib) "/var/log/new.log"
           Demo.world0 _ (Sys.PathError "stat" "/var/log/new.log" Sys.ENOENT));
    reflexivity.
Defined.

Lemma rotation_moves_a_directory_witness :
  exists w' : Sys.World,
    Logging.createLogFile "/var/log" true Demo.world0
    = (w', Ok {| Sys.fd := Sys.next_fd Demo.world0; Sys.name := "/var/log" |})
    /\ Sys.calls w'
       = (Sys.calls Demo.world0
          ++ [Sys.Stat "/var/log";
              Sys.Rename "/var/log" (backupName "/var/log" Demo.world0);
              Sys.Create "/var/log"])%list
    /\ Sys.nodes w' !! backupName "/var/log" Demo.world0 = Some Sys.NDir
    /\ Sys.nodes w' !! "/var/log" = Some (Sys.NFile "").
Proof.
  apply (rotation_moves_a_directory (H := Demo.lib) "/var/log" Demo.world0);
    reflexivity.
Defined.

Lemma label_of_decade_witness :
  String.length "VERBOSE" = 7%nat
  /\ noPercent "VERBOSE" = true
  /\ Logging.getLogTypeString (10 * (69 / 10)) = Ok "VERBOSE".
Proof.
  apply (label_of_decade 69 "VERBOSE"); [lia | reflexivity].
Defined.

Lemma emits_in_sequence_witness :
  Logging.writeMessage Demo.twoSinks Logging.Fatal "boom"
    (Logging.writeMessage Demo.twoSinks Logging.Warning "disk" Demo.world0).1
  = (Sys.add_output
       (writes ("WARNING" +:+ " " +:+ "disk")
          (filter (fun lg => Logging.Warning <= Logging.severity lg)
             (Logging.loggers Demo.twoSinks))
        ++ writes ("FATAL  " +:+ " " +:+ "boom")
             (filter (fun lg => Logging.Fatal <= Logging.severity lg)
                (Logging.loggers Demo.twoSinks)))%list Demo.world0,
     None).
Proof.
  apply (emits_in_sequence (H := Demo.lib) Demo.twoSinks Logging.Warning
           Logging.Fatal "WARNING" "FATAL  " "disk" "boom" Demo.world0).
  - repeat constructor; eexists; reflexivity.
  - reflexivity.
  - reflexivity.
Defined.

Lemma verbose_sinks_get_all_witness :
  Logging.writeMessage
    {| Logging.loggers := drop 1 (Logging.loggers Demo.twoSinks) |}
    Logging.Debug "tick" Demo.world0
  = (Sys.add_output
       (writes (padRight 7 "DEBUG" +:+ " " +:+ "tick")
          (drop 1 (Logging.loggers Demo.twoSinks))) Demo.world0, None).
Proof.
  apply (verbose_sinks_get_all (H := Demo.lib)
           {| Logging.loggers := drop 1 (Logging.loggers Demo.twoSinks) |}
           Logging.Debug "DEBUG" "tick" Demo.world0).
  - repeat constructor; eexists; reflexivity.
  - repeat constructor. vm_compute. discriminate.
  - unfold severityNames. rewrite !elem_of_cons. vm_compute. tauto.
Defined.

End Instances.
